(** * django_cohort_analysis: weekly cohorts, metric loading, cohort analysis

    A shallow embedding of [django_cohort_analysis/cohorts.py] and
    [django_cohort_analysis/metrics.py], together with the parts of the
    Python runtime the two modules lean on ([datetime], [str.title],
    [inspect.getmembers], [importlib.import_module]) and of the Django
    query interface ([Model.objects.all], the [range] field lookup).

    Conventions.
    - A Python call that may raise is a value of [pyresult A]: [OK a] for a
      normal return, [Err e] for a raised exception.
    - A naive [datetime.datetime] is the number of microseconds elapsed
      since midnight of proleptic ordinal 0, so that the date part is
      [d / US_PER_DAY] (what [toordinal()] returns) and the time of day is
      [d mod US_PER_DAY]. [datetime] arithmetic that leaves years 1..9999
      raises [OverflowError], as in Python.
    - A [datetime.timedelta] is a number of microseconds.
    - [import_module] reads and extends the [sys.modules] cache, so the
      functions that import take the import state and return it.
    - A [QuerySet] is modelled by the rows it yields when it is evaluated.
      Django builds querysets lazily: [Model.objects.all()] and [filter]
      only describe a query and raise nothing, whatever the state of the
      database.
    - Strings are byte strings, and [str.title] is modelled on ASCII
      text, where Python 2 and Python 3 agree (Python 3 also cases letters
      beyond ASCII); the statements about display names are stated for
      ASCII names ([Str.is_ascii]).
    - The default argument [window_length=6] of [get_time_window_from_date]
      is written out at its one call. *)

From Stdlib Require Import ZArith Lia Ascii.
From stdpp Require Import base list strings gmap sorting.

#[local] Open Scope Z_scope.

(** ** Exceptions and fallible results *)

Inductive exn : Type :=
  | OverflowError
  | TypeError
  | ValueError
  | ImportError
  | DoesNotExist
  | InvalidUserModel
  | NoMetricFileFound
  | NoMetricFunctionsFound
  | OtherError (msg : string).

#[global] Instance exn_eq_dec : EqDecision exn.
Proof. solve_decision. Defined.

Definition pyresult (A : Type) : Type := exn + A.

Abbreviation OK := inr (only parsing).
Abbreviation Err := inl (only parsing).

#[global] Instance pyresult_ret : MRet pyresult := fun _ a => inr a.
#[global] Instance pyresult_bind : MBind pyresult := fun _ _ f m =>
  match m with
  | inl e => inl e
  | inr a => f a
  end.

Definition is_ok {A} (r : pyresult A) : Prop := ∃ a, r = inr a.

(** ** The [datetime] module *)

Module Datetime.

Definition US_PER_SECOND : Z := 1000000.
Definition US_PER_DAY : Z := 86400 * US_PER_SECOND.
Definition MAXORDINAL : Z := 3652059.

(** [datetime.datetime] and [datetime.timedelta] values. *)
Definition datetime : Type := Z.
Definition timedelta : Type := Z.

Definition timedelta_days (n : Z) : timedelta := n * US_PER_DAY.
Definition timedelta_weeks (n : Z) : timedelta := timedelta_days (7 * n).

Definition toordinal (d : datetime) : Z := d / US_PER_DAY.

(** The values a [datetime] object can hold: 0001-01-01T00:00:00 up to
    9999-12-31T23:59:59.999999. *)
Definition dt_valid (d : datetime) : Prop :=
  1 ≤ toordinal d ≤ MAXORDINAL.

Definition dt_validb (d : datetime) : bool :=
  bool_decide (1 ≤ toordinal d) && bool_decide (toordinal d ≤ MAXORDINAL).

(** [datetime.__add__]: the sum is rebuilt from its day count, and
    [OverflowError] is raised unless [0 < days <= _MAXORDINAL]. *)
Definition dt_add (d : datetime) (td : timedelta) : pyresult datetime :=
  let r := d + td in
  if dt_validb r then OK r else Err OverflowError.

(** [datetime.__sub__] with a [timedelta]: [self + -other]. *)
Definition dt_sub (d : datetime) (td : timedelta) : pyresult datetime :=
  dt_add d (- td).

(** [date.weekday()]: Monday is 0, Sunday is 6. *)
Definition weekday (d : datetime) : Z := (toordinal d + 6) mod 7.

Definition is_monday (d : datetime) : Prop := weekday d = 0.

(** *** Calendar arithmetic ([_days_before_year], [_ymd2ord], [_ord2ymd]) *)

Definition is_leap (year : Z) : bool :=
  (year mod 4 =? 0) && (negb (year mod 100 =? 0) || (year mod 400 =? 0)).

Definition days_before_year (year : Z) : Z :=
  let y := year - 1 in
  y * 365 + y / 4 - y / 100 + y / 400.

Definition DAYS_IN_MONTH : list Z :=
  [31; 28; 31; 30; 31; 30; 31; 31; 30; 31; 30; 31].

Definition days_in_month (year month : Z) : Z :=
  if (month =? 2) && is_leap year then 29
  else default 0 (DAYS_IN_MONTH !! Z.to_nat (month - 1)).

Definition days_before_month (year month : Z) : Z :=
  foldr Z.add 0 (take (Z.to_nat (month - 1)) DAYS_IN_MONTH)
  + (if (2 <? month) && is_leap year then 1 else 0).

Definition ymd2ord (year month day : Z) : Z :=
  days_before_year year + days_before_month year month + day.

Definition DI400Y : Z := 146097.
Definition DI100Y : Z := 36524.
Definition DI4Y : Z := 1461.

(** The year component of [_ord2ymd]. *)
Definition ord2year (ordinal : Z) : Z :=
  let n := ordinal - 1 in
  let n400 := n / DI400Y in
  let n := n mod DI400Y in
  let year := n400 * 400 + 1 in
  let n100 := n / DI100Y in
  let n := n mod DI100Y in
  let n4 := n / DI4Y in
  let n := n mod DI4Y in
  let n1 := n / 365 in
  let year := year + n100 * 100 + n4 * 4 + n1 in
  if (n1 =? 4) || (n100 =? 4) then year - 1 else year.

(** [_isoweek1monday]: ordinal of the Monday starting ISO week 1. *)
Definition isoweek1monday (year : Z) : Z :=
  let THURSDAY := 3 in
  let firstday := ymd2ord year 1 1 in
  let firstweekday := (firstday + 6) mod 7 in
  let week1monday := firstday - firstweekday in
  if THURSDAY <? firstweekday then week1monday + 7 else week1monday.

(** [date.isocalendar()]: (ISO year, ISO week number, ISO weekday). *)
Definition isocalendar (d : datetime) : Z * Z * Z :=
  let year := ord2year (toordinal d) in
  let week1monday := isoweek1monday year in
  let today := toordinal d in
  let week := (today - week1monday) / 7 in
  let day := (today - week1monday) mod 7 in
  if week <? 0 then
    let year := year - 1 in
    let week1monday := isoweek1monday year in
    let week := (today - week1monday) / 7 in
    let day := (today - week1monday) mod 7 in
    (year, week + 1, day + 1)
  else if (52 <=? week) && (isoweek1monday (year + 1) <=? today) then
    (year + 1, 0 + 1, day + 1)
  else (year, week + 1, day + 1).

(** The constructor [datetime(year, month, day, hour, minute, second,
    microsecond)], for well-formed fields. *)
Definition mk_datetime (year month day hour minute second us : Z) : datetime :=
  ymd2ord year month day * US_PER_DAY
  + ((hour * 60 + minute) * 60 + second) * US_PER_SECOND + us.

Definition mk_date (year month day : Z) : datetime :=
  mk_datetime year month day 0 0 0 0.

End Datetime.

Import Datetime.

(** ** Strings: [str.replace] and [str.title] *)

Module Str.

Definition islower (c : ascii) : bool :=
  let n := nat_of_ascii c in (97 <=? n)%nat && (n <=? 122)%nat.

Definition isupper (c : ascii) : bool :=
  let n := nat_of_ascii c in (65 <=? n)%nat && (n <=? 90)%nat.

Definition toupper (c : ascii) : ascii :=
  if islower c then ascii_of_nat (nat_of_ascii c - 32) else c.

Definition tolower (c : ascii) : ascii :=
  if isupper c then ascii_of_nat (nat_of_ascii c + 32) else c.

(** [s.replace(old, new)] for one-character [old] and [new]. *)
Fixpoint replace (old new : ascii) (s : string) : string :=
  match s with
  | EmptyString => EmptyString
  | String c s' =>
      String (if Ascii.eqb c old then new else c) (replace old new s')
  end.

(** The strings on which this module speaks for Python 2 and Python 3
    alike: every character is an ASCII character. *)
Fixpoint is_ascii (s : string) : bool :=
  match s with
  | EmptyString => true
  | String c s' => (nat_of_ascii c <? 128)%nat && is_ascii s'
  end.

(** [s.title()] on ASCII text: a cased character is upper-cased when the
    character before it is uncased (or it is the first one) and
    lower-cased when the character before it is cased. The cased
    characters are the letters [a]..[z] and [A]..[Z]. *)
Fixpoint title_from (previous_is_cased : bool) (s : string) : string :=
  match s with
  | EmptyString => EmptyString
  | String c s' =>
      if islower c then
        String (if previous_is_cased then c else toupper c) (title_from true s')
      else if isupper c then
        String (if previous_is_cased then tolower c else c) (title_from true s')
      else String c (title_from false s')
  end.

Definition title (s : string) : string := title_from false s.

End Str.

(** ** The record source (Django model) *)

Record ModelInstance : Type := {
  pk : Z;
  date_created : datetime;
}.

#[global] Instance ModelInstance_eq_dec : EqDecision ModelInstance.
Proof. solve_decision. Defined.

(** An evaluated [QuerySet]: the rows it holds, in database order. *)
Definition QuerySet : Type := list ModelInstance.

(** A model class: the rows of its table, which the queryset built by
    [model.objects.all()] yields. *)
Record Model : Type := {
  objects_all : QuerySet;
}.

(** [model.objects.all()]: [Manager.all()] returns a new lazy queryset. It
    runs no query, so it has no way to find the table missing, and it
    raises nothing; [model.DoesNotExist] is raised by [QuerySet.get] only. *)
Definition call_objects_all (model : Model) : pyresult QuerySet :=
  OK (objects_all model).

(** [qs.filter(date_created__range=(lo, hi))]. Django's [range] lookup is
    inclusive: it is the SQL test [date_created BETWEEN lo AND hi]. *)
Definition filter_date_created_range (qs : QuerySet) (lo hi : datetime) : QuerySet :=
  filter (λ i, lo ≤ date_created i ≤ hi) qs.

(** [try: body  except exc: raise replacement] *)
Definition try_except_raise {A} (body : pyresult A) (exc replacement : exn) : pyresult A :=
  match body with
  | inl e => if decide (e = exc) then Err replacement else Err e
  | inr a => OK a
  end.

(** ** cohorts.py *)

Record Cohort : Type := {
  queryset : QuerySet;
  start_date : datetime;
  end_date : datetime;
}.

Definition snake_case_to_title (s : string) : string :=
  Str.title (Str.replace "_"%char " "%char s).

Definition get_file_or_default (metric_file : option string) : string :=
  match metric_file with
  | Some f => f
  | None => "cohorts.metrics"
  end.

Definition round_date_down (date_to_round : datetime) : pyresult datetime :=
  dt_sub date_to_round (timedelta_days (weekday date_to_round)).

Definition round_date_up (date_to_round : datetime) : pyresult datetime :=
  dt_sub date_to_round (timedelta_days (7 - weekday date_to_round)).

Definition stretch_to_rounded_date_range (start_date end_date : datetime)
  : pyresult (datetime * datetime) :=
  rounded_start_date ← round_date_down start_date;
  rounded_end_date ← round_date_up end_date;
  OK (rounded_start_date, rounded_end_date).

Definition extract_instances_in_date_range
    (model_instances : QuerySet) (time_window_start time_window_end : datetime)
  : QuerySet :=
  filter_date_created_range model_instances time_window_start time_window_end.

Definition get_time_window_from_date (date : datetime) (window_length : Z)
  : pyresult (datetime * datetime) :=
  end_date ← dt_add date (timedelta_days window_length);
  OK (date, end_date).

(** The [while time_window_end < end_date] loop of [get_cohorts_from_model],
    unrolled at most [fuel] times; [cohorts] is the list built so far. With
    the fuel [get_cohorts_from_model] passes, the loop always leaves through
    its own exit test, never by lack of fuel (lemma
    [cohort_loop_fuel_enough]). *)
Fixpoint cohort_loop (fuel : nat) (all_model_instances : QuerySet)
    (end_date : datetime) (cohorts : list Cohort)
    (time_window_start time_window_end : datetime) : pyresult (list Cohort) :=
  match fuel with
  | O => OK cohorts
  | S fuel' =>
      if bool_decide (time_window_end < end_date) then
        let instances_in_window :=
          extract_instances_in_date_range all_model_instances
            time_window_start time_window_end in
        let cohorts :=
          cohorts ++ [Build_Cohort instances_in_window time_window_start time_window_end] in
        time_window_start ← dt_add time_window_start (timedelta_weeks 1);
        time_window_end ← dt_add time_window_end (timedelta_weeks 1);
        cohort_loop fuel' all_model_instances end_date cohorts
          time_window_start time_window_end
      else OK cohorts
  end.

(** A number of iterations the loop cannot exceed: every turn moves
    [time_window_end] one week closer to [end_date]. *)
Definition cohort_loop_fuel (time_window_end end_date : datetime) : nat :=
  Z.to_nat ((end_date - time_window_end) / timedelta_weeks 1 + 1).

Definition get_cohorts_from_model (model : Model) (start_date end_date : datetime)
  : pyresult (list Cohort) :=
  try_except_raise
    ('(time_window_start, time_window_end) ← get_time_window_from_date start_date 6;
     all_model_instances ← call_objects_all model;
     cohort_loop (cohort_loop_fuel time_window_end end_date)
       all_model_instances end_date [] time_window_start time_window_end)
    DoesNotExist InvalidUserModel.

(** *** Metrics and module namespaces *)

(** What a metric returns: any JSON-like Python value. *)
#[local] Set Warnings "-register-all".
Inductive pyvalue : Type :=
  | PyNone
  | PyInt (n : Z)
  | PyStr (s : string)
  | PyList (l : list pyvalue).

(** The call [f(cohort, start_date, end_date)]. *)
Definition metric_fn : Type := Cohort → datetime → datetime → pyresult pyvalue.

(** An attribute of a module object. *)
Inductive member : Type :=
  | MFunction (f : metric_fn)  (** a [def]: [inspect.isfunction] holds *)
  | MCallable (f : metric_fn)  (** callable but no function: a class, a builtin *)
  | MData.                     (** not callable: a string, a number, a module *)

Definition isfunction (m : member) : bool :=
  match m with
  | MFunction _ => true
  | _ => false
  end.

Definition callable (m : member) : bool :=
  match m with
  | MFunction _ | MCallable _ => true
  | MData => false
  end.

(** [m(cohort, start_date, end_date)]; calling a non-callable raises
    [TypeError]. *)
Definition call (m : member) : metric_fn :=
  match m with
  | MFunction f | MCallable f => f
  | MData => λ _ _ _, Err TypeError
  end.

(** A module object: its attribute dictionary. *)
Abbreviation namespace := (gmap string member).

(** The order [list.sort] and [sorted] put on (name, value) pairs. The
    names are the keys of one dictionary, hence pairwise distinct, and the
    comparison of two pairs is decided by their names. *)
Definition pair_le (p q : string * member) : Prop := String.le p.1 q.1.

#[global] Instance pair_le_dec : RelDecision pair_le.
Proof. intros p q. unfold pair_le. apply _. Defined.

Definition sorted (l : list (string * member)) : list (string * member) :=
  merge_sort pair_le l.

(** [inspect.getmembers(object, predicate)]: the (name, value) pairs of the
    attributes that satisfy [predicate], sorted by name. *)
Definition getmembers (object : namespace) (predicate : member → bool)
  : list (string * member) :=
  sorted (filter (λ kv, predicate kv.2 = true) (map_to_list object)).

(** How the search for a module that is not cached yet ends. *)
Inductive load_result : Type :=
  | Loaded (m : namespace)  (** found, and its code ran to the end *)
  | LoadImportError         (** no such module, or an import inside it failed *)
  | LoadError (msg : string). (** its code raised something else *)

(** The import machinery: the [sys.modules] cache, and the finder that
    locates and loads a module that is not cached yet. Besides its outcome
    a load leaves behind the other modules it imported on the way: the
    parent packages of the module and the modules its own code imports. *)
Record ImportSystem : Type := {
  sys_modules : gmap string namespace;
  finder : string → load_result * gmap string namespace;
}.

(** A relative module name: it starts with a dot. *)
Definition is_relative (name : string) : bool :=
  match name with
  | String "."%char _ => true
  | _ => false
  end.

(** [importlib.import_module(name)], with no [package] argument: a relative
    name raises [TypeError] and the empty name [ValueError] before anything
    is looked up; a cached module is returned as it is; otherwise the
    module is searched and loaded, the modules imported on the way are
    cached (those already cached are kept), and so is the module itself
    when the load succeeds. *)
Definition import_module (name : string) (st : ImportSystem)
  : pyresult namespace * ImportSystem :=
  if is_relative name then (Err TypeError, st)
  else if decide (name = "") then (Err ValueError, st)
  else
    match sys_modules st !! name with
    | Some m => (OK m, st)
    | None =>
        let '(outcome, imported_on_the_way) := finder st name in
        let cache := sys_modules st ∪ imported_on_the_way in
        match outcome with
        | Loaded m =>
            (OK m, {| sys_modules := <[name := m]> cache; finder := finder st |})
        | LoadImportError =>
            (Err ImportError, {| sys_modules := cache; finder := finder st |})
        | LoadError msg =>
            (Err (OtherError msg), {| sys_modules := cache; finder := finder st |})
        end
    end.

Definition get_sorted_metric_function_tuples (metrics_module : namespace)
  : list (string * member) :=
  sorted (getmembers metrics_module isfunction).

Definition get_metrics_from_file (metric_file : string) (st : ImportSystem)
  : pyresult (list (string * member)) * ImportSystem :=
  let '(imported, st) := import_module metric_file st in
  let metrics :=
    try_except_raise
      (metrics ← imported; OK (get_sorted_metric_function_tuples metrics))
      ImportError NoMetricFileFound in
  (metrics ← metrics;
   match metrics with
   | [] => Err NoMetricFunctionsFound
   | _ => OK metrics
   end, st).

(** *** Reports *)

Record AnalysisEntry : Type := {
  function_name : string;
  analysis_result : pyvalue;
}.

Record CohortReport : Type := {
  born_week : Z;
  analysis : list AnalysisEntry;
}.

Definition get_isoweek_from_date (date : datetime) : Z :=
  (isocalendar date).1.2.

Definition create_default_dict_for_cohort (cohort : Cohort) : CohortReport :=
  {| born_week := get_isoweek_from_date (start_date cohort); analysis := [] |}.

(** [cohort.start_date], written where a parameter called [start_date]
    hides the field. *)
Abbreviation cohort_start_date := start_date (only parsing).

Definition map_metric_to_cohort (metric : string * member) (cohort : Cohort)
    (start_date end_date : datetime) : pyresult AnalysisEntry :=
  let function_name := snake_case_to_title metric.1 in
  analysis_result ← call metric.2 cohort (cohort_start_date cohort) end_date;
  OK {| function_name := function_name; analysis_result := analysis_result |}.

(** The inner loop of [analyze_cohorts]: [for metric in metrics]. *)
Fixpoint metrics_loop (metrics : list (string * member)) (cohort : Cohort)
    (start_date end_date : datetime) (cohort_analysis_dict : CohortReport)
  : pyresult CohortReport :=
  match metrics with
  | [] => OK cohort_analysis_dict
  | metric :: metrics' =>
      metric_analysis ← map_metric_to_cohort metric cohort start_date end_date;
      metrics_loop metrics' cohort start_date end_date
        {| born_week := born_week cohort_analysis_dict;
           analysis := analysis cohort_analysis_dict ++ [metric_analysis] |}
  end.

(** The outer loop of [analyze_cohorts]: [for cohort in cohorts]. *)
Fixpoint cohorts_loop (cohorts : list Cohort) (metrics : list (string * member))
    (start_date end_date : datetime) (analysis : list CohortReport)
  : pyresult (list CohortReport) :=
  match cohorts with
  | [] => OK analysis
  | cohort :: cohorts' =>
      cohort_analysis_dict ←
        metrics_loop metrics cohort start_date end_date
          (create_default_dict_for_cohort cohort);
      cohorts_loop cohorts' metrics start_date end_date
        (analysis ++ [cohort_analysis_dict])
  end.

Definition analyze_cohorts (cohorts : list Cohort) (metric_file : string)
    (start_date end_date : datetime) (st : ImportSystem)
  : pyresult (list CohortReport) * ImportSystem :=
  let '(metrics, st) := get_metrics_from_file metric_file st in
  (metrics ← metrics; cohorts_loop cohorts metrics start_date end_date [], st).

Definition analyze_cohorts_for_model (model : Model) (start_date end_date : datetime)
    (metric_file : option string) (st : ImportSystem)
  : pyresult (list CohortReport) * ImportSystem :=
  match stretch_to_rounded_date_range start_date end_date with
  | inl e => (Err e, st)
  | inr (rounded_start_date, rounded_end_date) =>
      let metric_file := get_file_or_default metric_file in
      match get_cohorts_from_model model rounded_start_date rounded_end_date with
      | inl e => (Err e, st)
      | inr cohorts =>
          analyze_cohorts cohorts metric_file rounded_start_date rounded_end_date st
      end
  end.

(** ** metrics.py *)

(** The operands [example_metric] adds and compares. *)
Inductive pyobj : Type :=
  | PyDatetime (d : datetime)
  | PyTimedelta (td : timedelta).

(** [a + b]: a [datetime] plus a [timedelta] (either way round) is a
    [datetime], two [timedelta]s add up, two [datetime]s raise [TypeError]. *)
Definition py_add (a b : pyobj) : pyresult pyobj :=
  match a, b with
  | PyDatetime d, PyTimedelta td | PyTimedelta td, PyDatetime d =>
      d' ← dt_add d td; OK (PyDatetime d')
  | PyTimedelta x, PyTimedelta y => OK (PyTimedelta (x + y))
  | PyDatetime _, PyDatetime _ => Err TypeError
  end.

(** [a < b]: defined between two values of the same type only. *)
Definition py_lt (a b : pyobj) : pyresult bool :=
  match a, b with
  | PyDatetime x, PyDatetime y | PyTimedelta x, PyTimedelta y =>
      OK (bool_decide (x < y))
  | _, _ => Err TypeError
  end.

(** [queryset.count()] *)
Definition count (qs : QuerySet) : Z := Z.of_nat (length qs).

(** The [while window_end_date < end_date] loop of [example_metric],
    unrolled at most [fuel] times. *)
Fixpoint example_metric_loop (fuel : nat) (cohort : Cohort) (end_date : pyobj)
    (result : list pyvalue) (window_start_date window_end_date : pyobj)
  : pyresult (list pyvalue) :=
  match fuel with
  | O => OK result
  | S fuel' =>
      continue ← py_lt window_end_date end_date;
      if continue : bool then
        let result := result ++ [PyInt (count (queryset cohort))] in
        step ← py_add window_end_date (PyTimedelta (timedelta_days 1));
        window_start_date ← py_add window_start_date step;
        step ← py_add window_start_date (PyTimedelta (timedelta_weeks 1));
        window_end_date ← py_add window_end_date step;
        example_metric_loop fuel' cohort end_date result
          window_start_date window_end_date
      else OK result
  end.

(** The first turn of the loop already raises (it adds a [datetime] to a
    [datetime]), so one unrolling is all the loop ever needs (lemma
    [example_metric_loop_one_turn]). *)
Definition example_metric : metric_fn := λ cohort start_date end_date,
  let result := [] in
  let window_start_date := PyDatetime start_date in
  window_end_date ← py_add window_start_date (PyTimedelta (timedelta_weeks 1));
  result ← example_metric_loop 1 cohort (PyDatetime end_date) result
              window_start_date window_end_date;
  OK (PyList result).

(** The namespace of [django_cohort_analysis.metrics]: the module
    attributes every module has, the imported class [timedelta], and
    [example_metric]. *)
Definition metrics_module : namespace :=
  list_to_map [
    ("__builtins__", MData);
    ("__doc__", MData);
    ("__file__", MData);
    ("__name__", MData);
    ("__package__", MData);
    ("example_metric", MFunction example_metric);
    ("timedelta", MCallable (λ _ _ _, Err TypeError))
  ].

(** ** Closed forms used in the statements below *)

(** The first [n] weekly windows after [(window_start, window_end)], each
    wrapped with its records into a [Cohort]. *)
Definition weekly_cohorts (all_model_instances : QuerySet)
    (window_start window_end : datetime) (n : nat) : list Cohort :=
  (λ k : nat,
     let shift := timedelta_weeks (Z.of_nat k) in
     Build_Cohort
       (extract_instances_in_date_range all_model_instances
          (window_start + shift) (window_end + shift))
       (window_start + shift) (window_end + shift)) <$> seq 0 n.

(** What the loop of [get_cohorts_from_model] keeps true of every cohort:
    it holds the records the [range] lookup selects for its own bounds,
    and it is six days wide. *)
Definition cohort_ok (all_model_instances : QuerySet) (c : Cohort) : Prop :=
  queryset c = filter_date_created_range all_model_instances (start_date c) (end_date c)
  ∧ end_date c = start_date c + timedelta_days 6.

(** The namespace a name resolves to: the module [import_module] returns
    for it, if it returns one. *)
Definition resolve (name : string) (st : ImportSystem) : option namespace :=
  match (import_module name st).1 with
  | inr m => Some m
  | inl _ => None
  end.

Definition has_function_member (object : namespace) : Prop :=
  ∃ name f, object !! name = Some (MFunction f).

Definition has_callable_member (object : namespace) : Prop :=
  ∃ name m, object !! name = Some m ∧ callable m = true.

(** Strictly increasing names, in the lexicographic order of [String.le]. *)
Definition name_lt (p q : string * member) : Prop := strict String.le p.1 q.1.

(** The display name in the words of the specification, "the metric's name
    with underscores replaced by spaces and each word capitalized": the
    name is cut at its underscores, the first character of each piece is
    upper-cased, and the pieces are joined by single spaces. *)
Fixpoint split_underscore (s : string) : list string :=
  match s with
  | EmptyString => [EmptyString]
  | String c s' =>
      if Ascii.eqb c "_"%char then EmptyString :: split_underscore s'
      else
        match split_underscore s' with
        | w :: ws => String c w :: ws
        | [] => [String c EmptyString]
        end
  end.

Definition capitalize (w : string) : string :=
  match w with
  | EmptyString => EmptyString
  | String c w' => String (Str.toupper c) w'
  end.

Fixpoint join_space (ws : list string) : string :=
  match ws with
  | [] => EmptyString
  | w :: ws' =>
      match ws' with
      | [] => w
      | _ => w +:+ String " "%char (join_space ws')
      end
  end.

Definition words_capitalized (s : string) : string :=
  join_space (capitalize <$> split_underscore s).

(** Title case in the words of [str.title]'s documentation: words start
    with an upper-case letter and the remaining letters are lower-case, a
    word being a run of letters. The letters are those of the alphabet,
    written out; the upper-case form of a letter is the letter at the same
    place in the upper-case alphabet. *)
Definition LOWERCASE : string := "abcdefghijklmnopqrstuvwxyz".
Definition UPPERCASE : string := "ABCDEFGHIJKLMNOPQRSTUVWXYZ".

Fixpoint index_of (c : ascii) (s : string) : option nat :=
  match s with
  | EmptyString => None
  | String a s' => if Ascii.eqb c a then Some O else S <$> index_of c s'
  end.

Definition is_letter (c : ascii) : bool :=
  match index_of c LOWERCASE, index_of c UPPERCASE with
  | None, None => false
  | _, _ => true
  end.

Definition upper_case (c : ascii) : ascii :=
  match index_of c LOWERCASE with
  | Some i => default c (String.get i UPPERCASE)
  | None => c
  end.

Definition lower_case (c : ascii) : ascii :=
  match index_of c UPPERCASE with
  | Some i => default c (String.get i LOWERCASE)
  | None => c
  end.

(** [is_display_name name out]: [out] is [name], character by character,
    with every underscore turned into a space, every letter that starts
    the name or follows a character that is no letter in upper case, and
    every other letter in lower case. *)

Definition starts_word (i : nat) (name : string) : bool :=
  match i with
  | O => true
  | S j =>
      match String.get j name with
      | Some previous => negb (is_letter previous)
      | None => true
      end
  end.

Definition display_char (i : nat) (name : string) (c : ascii) : ascii :=
  if Ascii.eqb c "_"%char then " "%char
  else if is_letter c then
    if starts_word i name then upper_case c else lower_case c
  else c.

Definition is_display_name (name out : string) : Prop :=
  String.length out = String.length name
  ∧ ∀ (i : nat) c, String.get i name = Some c →
      String.get i out = Some (display_char i name c).

(** ISO 8601 week numbers: week 1 of a year is the week, Monday to Sunday,
    that holds January 4th. [iso_week1_start year m]: the day of ordinal
    [m] is the Monday of that week. [is_iso_week d w]: the day of [d] lies
    in the [w]-th week counted from the Monday that starts week 1 of an
    ISO year, and before week 1 of the next one. *)
Definition iso_week1_start (year m : Z) : Prop :=
  (m + 6) mod 7 = 0 ∧ ymd2ord year 1 4 - 6 ≤ m ≤ ymd2ord year 1 4.

Definition is_iso_week (d : datetime) (w : Z) : Prop :=
  ∃ year m m',
    iso_week1_start year m ∧ iso_week1_start (year + 1) m'
    ∧ m ≤ toordinal d < m'
    ∧ w = (toordinal d - m) / 7 + 1.

(** Names in snake case: lower-case letters and underscores. *)
Fixpoint snake_lower (s : string) : bool :=
  match s with
  | EmptyString => true
  | String c s' => (Str.islower c || Ascii.eqb c "_"%char) && snake_lower s'
  end.

(** ** Sample data *)

(** A collection that holds one record created on Monday
    2015-01-05 at midnight, one created on Wednesday 2015-01-07 at noon
    and one created on Sunday 2015-01-11 at midnight. *)
Definition signups : QuerySet := [
  {| pk := 1; date_created := mk_date 2015 1 5 |};
  {| pk := 2; date_created := mk_datetime 2015 1 7 12 0 0 0 |};
  {| pk := 3; date_created := mk_date 2015 1 11 |}
].

Definition signup_model : Model := {| objects_all := signups |}.

(** A module that imports the class [timedelta] and defines no function. *)
Definition helpers_module : namespace :=
  {[ "timedelta" := MCallable (λ _ _ _, Err TypeError) ]}.

(** The namespace of the [datetime] module, as far as it matters here:
    its classes. *)
Definition datetime_module : namespace :=
  list_to_map [
    ("date", MCallable (λ _ _ _, Err TypeError));
    ("datetime", MCallable (λ _ _ _, Err TypeError));
    ("timedelta", MCallable (λ _ _ _, Err TypeError))
  ].

Definition helpers_imports : ImportSystem :=
  {| sys_modules := ∅;
     finder := λ name,
       if decide (name = "helpers")
       then (Loaded helpers_module, {[ "datetime" := datetime_module ]})
       else (LoadImportError, ∅) |}.

(** The package as [setup.py] installs it: [packages] lists
    [django_cohort_analysis], whose module [metrics] is therefore imported
    as [django_cohort_analysis.metrics]; nothing has been imported yet. *)
Definition package_module : namespace :=
  list_to_map [
    ("__doc__", MData);
    ("__name__", MData);
    ("__path__", MData);
    ("metrics", MData)
  ].

Definition installed_package : ImportSystem :=
  {| sys_modules := ∅;
     finder := λ name,
       if decide (name = "django_cohort_analysis.metrics")
       then (Loaded metrics_module,
             {[ "django_cohort_analysis" := package_module;
                "datetime" := datetime_module ]})
       else (LoadImportError, ∅) |}.

(** The first weekly cohort of [signup_model] from Monday 2015-01-05. *)
Definition first_week : Cohort :=
  {| queryset := signups;
     start_date := mk_date 2015 1 5;
     end_date := mk_date 2015 1 11 |}.

(** [installed_package] once [django_cohort_analysis.metrics] is imported:
    the package and the [datetime] module imported by [metrics.py] are
    cached with it. *)
Definition metrics_imported : ImportSystem :=
  {| sys_modules :=
       {[ "django_cohort_analysis.metrics" := metrics_module;
          "django_cohort_analysis" := package_module;
          "datetime" := datetime_module ]};
     finder := finder installed_package |}.

(** A metric module whose one function has a digit in its name. *)
Definition retention_module : namespace :=
  {[ "day7x" := MFunction (λ cohort _ _, OK (PyInt (count (queryset cohort)))) ]}.

Definition retention_imports : ImportSystem :=
  {| sys_modules := {[ "retention" := retention_module ]};
     finder := λ _, (LoadImportError, ∅) |}.

(** Closed facts about concrete dates, by evaluation. *)
Ltac dt_compute := vm_compute; repeat split; (discriminate || reflexivity).

(** Wednesday 2015-01-07 at noon, and the Monday before it at noon. *)
Definition wednesday_noon : datetime := mk_datetime 2015 1 7 12 0 0 0.
Definition monday_noon : datetime := mk_datetime 2015 1 5 12 0 0 0.

(** A record created on Sunday 2015-01-11 at noon. *)
Definition sunday_noon_signup : ModelInstance :=
  {| pk := 4; date_created := mk_datetime 2015 1 11 12 0 0 0 |}.


(** * Properties *)

(** ** Dates *)

Section datetime_facts.
Implicit Types d r : datetime.

Lemma dt_validb_spec d : dt_validb d = true ↔ dt_valid d.
Proof.
  unfold dt_validb, dt_valid.
  rewrite andb_true_iff, !bool_decide_eq_true. tauto.
Qed.

Lemma dt_add_OK d td r : dt_add d td = inr r ↔ r = d + td ∧ dt_valid r.
Proof.
  unfold dt_add. destruct (dt_validb (d + td)) eqn:Hv.
  - apply dt_validb_spec in Hv. split.
    + intros [= <-]. done.
    + intros [-> _]. done.
  - split; [discriminate|]. intros [-> Hr%dt_validb_spec]. congruence.
Qed.

Lemma dt_add_valid d td : dt_valid (d + td) → dt_add d td = inr (d + td).
Proof. intros. by apply dt_add_OK. Qed.

Lemma dt_add_overflow d td : ¬ dt_valid (d + td) → dt_add d td = inl OverflowError.
Proof.
  intros Hn. unfold dt_add. destruct (dt_validb (d + td)) eqn:Hv; [|done].
  by apply dt_validb_spec in Hv.
Qed.

Lemma dt_add_Err d td e : dt_add d td = inl e → e = OverflowError ∧ ¬ dt_valid (d + td).
Proof.
  unfold dt_add. destruct (dt_validb (d + td)) eqn:Hv; [discriminate|].
  intros [= <-]. split; [done|]. intros Hd%dt_validb_spec. congruence.
Qed.

Lemma toordinal_add_days d n : toordinal (d + timedelta_days n) = toordinal d + n.
Proof.
  unfold toordinal, timedelta_days. apply Z.div_add. vm_compute. discriminate.
Qed.

Lemma weekday_range d : 0 ≤ weekday d < 7.
Proof. unfold weekday. apply Z.mod_pos_bound. lia. Qed.

Lemma weekday_add_days d n : weekday (d + timedelta_days n) = (weekday d + n) mod 7.
Proof.
  unfold weekday. rewrite toordinal_add_days.
  rewrite Zplus_mod_idemp_l. f_equal. lia.
Qed.

Lemma timedelta_days_opp n : - timedelta_days n = timedelta_days (- n).
Proof. unfold timedelta_days. lia. Qed.

Lemma dt_valid_between d lo hi : dt_valid lo → dt_valid hi → lo ≤ d ≤ hi → dt_valid d.
Proof.
  unfold dt_valid, toordinal. intros [Hlo _] [_ Hhi] [H1 H2].
  assert (0 < US_PER_DAY) by (vm_compute; done).
  split.
  - etrans; [exact Hlo|]. by apply Z.div_le_mono.
  - etrans; [|exact Hhi]. by apply Z.div_le_mono.
Qed.

(** [round_date_down] never overflows: ordinal 1 is itself a Monday. *)
Lemma round_date_down_spec d :
  dt_valid d →
  ∃ r, round_date_down d = inr r ∧ is_monday r ∧ r ≤ d ∧ d - r < timedelta_weeks 1.
Proof.
  intros [Hlo Hhi]. pose proof (weekday_range d) as Hw.
  exists (d + timedelta_days (- weekday d)).
  unfold round_date_down, dt_sub. rewrite timedelta_days_opp.
  split; [|split; [|split]].
  - apply dt_add_valid. unfold dt_valid. rewrite toordinal_add_days.
    unfold weekday in *. unfold MAXORDINAL in *.
    pose proof (Z.div_mod (toordinal d + 6) 7). lia.
  - unfold is_monday. rewrite weekday_add_days.
    replace (weekday d + - weekday d) with 0 by lia. done.
  - unfold timedelta_days, US_PER_DAY, US_PER_SECOND. lia.
  - unfold timedelta_weeks, timedelta_days, US_PER_DAY, US_PER_SECOND. lia.
Qed.

(** [round_date_up] subtracts [7 - weekday] days: whenever it returns,
    the result lies strictly before its argument, between one and seven
    days back, and it is a Monday only if the argument was one. *)
Lemma round_date_up_spec d r :
  round_date_up d = inr r →
  r = d - timedelta_days (7 - weekday d) ∧ r < d ∧ (is_monday r ↔ is_monday d).
Proof.
  unfold round_date_up, dt_sub. rewrite timedelta_days_opp.
  intros [-> _]%dt_add_OK. pose proof (weekday_range d) as Hw.
  split; [|split].
  - unfold timedelta_days. lia.
  - unfold timedelta_days, US_PER_DAY, US_PER_SECOND. lia.
  - unfold is_monday. rewrite weekday_add_days.
    replace (weekday d + - (7 - weekday d)) with (2 * weekday d + (-1) * 7) by lia.
    rewrite Z.mod_add by lia. split; intros H.
    + apply Z.mod_divide in H; [|lia]. destruct H as [k Hk]. lia.
    + rewrite H. done.
Qed.

Lemma round_date_up_never_rounds_up d r : round_date_up d = inr r → ¬ d ≤ r.
Proof. intros (_ & Hlt & _)%round_date_up_spec. lia. Qed.
End datetime_facts.

(** C1: on the range 2015-01-05 (a Monday) to 2015-01-14 (a Wednesday),
    nine days long, [stretch_to_rounded_date_range] returns 2015-01-09 as
    the rounded end: a Friday that lies before the original end, where a
    Monday on or after it was promised. The rounded start is as promised. *)
Theorem stretch_rounds_end_backwards :
  let start_date := mk_date 2015 1 5 in
  let end_date := mk_date 2015 1 14 in
  timedelta_weeks 1 ≤ end_date - start_date ∧
  stretch_to_rounded_date_range start_date end_date
    = inr (mk_date 2015 1 5, mk_date 2015 1 9) ∧
  weekday (mk_date 2015 1 5) = 0 ∧
  weekday (mk_date 2015 1 9) = 4 ∧
  mk_date 2015 1 9 < end_date.
Proof. vm_compute. repeat split; congruence. Qed.


(** ** ISO weeks *)

Section iso_weeks.
Implicit Types (d : datetime) (y o : Z).

(** [ord2year] finds the year an ordinal falls in. *)
Lemma ord2year_spec o :
  1 ≤ o → days_before_year (ord2year o) < o ≤ days_before_year (ord2year o + 1).
Proof.
  intros Ho. unfold ord2year, days_before_year, DI400Y, DI100Y, DI4Y.
  set (n := o - 1).
  destruct ((n mod 146097 mod 36524 mod 1461 / 365 =? 4)
            || (n mod 146097 / 36524 =? 4)) eqn:Hc.
  - apply orb_true_iff in Hc as [Hc|Hc]; apply Z.eqb_eq in Hc;
      subst n; Z.to_euclidean_division_equations; lia.
  - apply orb_false_iff in Hc as [Hc1 Hc2]. apply Z.eqb_neq in Hc1, Hc2.
    subst n; Z.to_euclidean_division_equations; lia.
Qed.

Lemma ymd2ord_jan1 y : ymd2ord y 1 1 = days_before_year y + 1.
Proof. unfold ymd2ord. change (days_before_month y 1) with 0. lia. Qed.

Lemma days_before_year_step y :
  365 ≤ days_before_year (y + 1) - days_before_year y ≤ 366.
Proof. unfold days_before_year. Z.to_euclidean_division_equations. lia. Qed.

(** ISO week 1 starts on the Monday that lies between December 29 and
    January 4: the week that holds the year's first Thursday. *)
Lemma isoweek1monday_spec y :
  (isoweek1monday y + 6) mod 7 = 0
  ∧ ymd2ord y 1 1 - 3 ≤ isoweek1monday y ≤ ymd2ord y 1 1 + 3.
Proof.
  unfold isoweek1monday. set (f := ymd2ord y 1 1).
  destruct (3 <? (f + 6) mod 7) eqn:Hc.
  - apply Z.ltb_lt in Hc. Z.to_euclidean_division_equations. lia.
  - apply Z.ltb_ge in Hc. Z.to_euclidean_division_equations. lia.
Qed.

(** [isocalendar] returns the ISO year whose weeks hold the date, the
    number (from 1) of the week among them and the number (from 1, for
    Monday) of the day in that week. *)
Lemma isocalendar_spec d :
  1 ≤ toordinal d →
  let '(year, week, day) := isocalendar d in
  toordinal d = isoweek1monday year + 7 * (week - 1) + (day - 1)
  ∧ 1 ≤ day ≤ 7
  ∧ 1 ≤ week ≤ 53
  ∧ isoweek1monday year ≤ toordinal d < isoweek1monday (year + 1).
Proof.
  intros Ho. unfold isocalendar.
  pose proof (ord2year_spec _ Ho) as Hy.
  set (y := ord2year (toordinal d)) in *. set (o := toordinal d) in *.
  pose proof (isoweek1monday_spec y) as [Hm0 Hb0].
  pose proof (isoweek1monday_spec (y - 1)) as [Hm1 Hb1].
  pose proof (isoweek1monday_spec (y + 1)) as [Hm2 Hb2].
  pose proof (isoweek1monday_spec (y + 1 + 1)) as [Hm3 Hb3].
  pose proof (days_before_year_step y) as Hs0.
  pose proof (days_before_year_step (y - 1)) as Hs1.
  pose proof (days_before_year_step (y + 1)) as Hs2.
  rewrite !ymd2ord_jan1 in *.
  replace (y - 1 + 1) with y in * by lia.
  destruct ((o - isoweek1monday y) / 7 <? 0) eqn:Hneg.
  - apply Z.ltb_lt in Hneg. cbv beta iota zeta.
    replace (y - 1 + 1) with y by lia.
    Z.to_euclidean_division_equations. lia.
  - apply Z.ltb_ge in Hneg.
    destruct ((52 <=? (o - isoweek1monday y) / 7)
              && (isoweek1monday (y + 1) <=? o)) eqn:Hc; cbv beta iota zeta.
    + apply andb_true_iff in Hc as [H52%Z.leb_le Hnext%Z.leb_le].
      Z.to_euclidean_division_equations. lia.
    + apply andb_false_iff in Hc.
      destruct Hc as [Hc|Hc]; apply Z.leb_gt in Hc;
        Z.to_euclidean_division_equations; lia.
Qed.

Lemma get_isoweek_from_date_range d :
  dt_valid d → 1 ≤ get_isoweek_from_date d ≤ 53.
Proof.
  intros [Ho _]. pose proof (isocalendar_spec d Ho) as H.
  unfold get_isoweek_from_date. destruct (isocalendar d) as [[year week] day].
  simpl. tauto.
Qed.

Lemma ymd2ord_jan4 y : ymd2ord y 1 4 = ymd2ord y 1 1 + 3.
Proof. unfold ymd2ord. lia. Qed.

Lemma isoweek1monday_iso_week1_start y : iso_week1_start y (isoweek1monday y).
Proof.
  destruct (isoweek1monday_spec y) as [Hm Hb]. split; [done|].
  rewrite ymd2ord_jan4. lia.
Qed.

(** The Monday that starts week 1 of a year is determined by the year. *)
Lemma iso_week1_start_unique y m : iso_week1_start y m → m = isoweek1monday y.
Proof.
  intros [Hm Hb]. destruct (isoweek1monday_iso_week1_start y) as [Hm' Hb'].
  Z.to_euclidean_division_equations. lia.
Qed.

(** What [get_isoweek_from_date] returns is the ISO week number of the
    date, and the only one. *)
Lemma get_isoweek_from_date_is_iso_week d :
  1 ≤ toordinal d → is_iso_week d (get_isoweek_from_date d).
Proof.
  intros Ho. pose proof (isocalendar_spec d Ho) as H.
  unfold get_isoweek_from_date. destruct (isocalendar d) as [[year week] day].
  simpl. destruct H as (Heq & Hday & Hweek & Hin).
  exists year, (isoweek1monday year), (isoweek1monday (year + 1)).
  split; [apply isoweek1monday_iso_week1_start|].
  split; [apply isoweek1monday_iso_week1_start|]. split; [done|].
  rewrite Heq. Z.to_euclidean_division_equations. lia.
Qed.

Example isocalendar_examples :
  isocalendar (mk_date 2015 1 5) = (2015, 2, 1)
  ∧ isocalendar (mk_date 2014 12 29) = (2015, 1, 1)
  ∧ isocalendar (mk_date 2016 1 1) = (2015, 53, 5)
  ∧ isocalendar (mk_datetime 2015 12 31 23 59 59 999999) = (2015, 53, 4).
Proof. repeat split; vm_compute; reflexivity. Qed.
End iso_weeks.


(** ** The cohort builder *)

Section cohort_builder.
Implicit Types (all : QuerySet) (cohorts acc : list Cohort) (ws we : datetime).

Lemma timedelta_weeks_S (k : nat) :
  timedelta_weeks (Z.of_nat (S k)) = timedelta_weeks 1 + timedelta_weeks (Z.of_nat k).
Proof. unfold timedelta_weeks, timedelta_days. lia. Qed.

Lemma weekly_cohorts_S all ws we n :
  weekly_cohorts all ws we (S n) =
    Build_Cohort (extract_instances_in_date_range all ws we) ws we
    :: weekly_cohorts all (ws + timedelta_weeks 1) (we + timedelta_weeks 1) n.
Proof.
  unfold weekly_cohorts. cbn [seq]. rewrite <- fmap_S_seq. csimpl.
  rewrite <- list_fmap_compose. f_equal.
  - change (timedelta_weeks (Z.of_nat 0)) with 0. by rewrite !Z.add_0_r.
  - apply list_fmap_ext. intros _ k _. simpl.
    rewrite timedelta_weeks_S, !Z.add_assoc. done.
Qed.

Lemma length_weekly_cohorts all ws we n : length (weekly_cohorts all ws we n) = n.
Proof. unfold weekly_cohorts. by rewrite length_fmap, length_seq. Qed.

(** One turn of the [while] loop. *)
Lemma cohort_loop_S fuel all end_date cohorts ws we :
  cohort_loop (S fuel) all end_date cohorts ws we =
    if bool_decide (we < end_date) then
      ws' ← dt_add ws (timedelta_weeks 1);
      we' ← dt_add we (timedelta_weeks 1);
      cohort_loop fuel all end_date
        (cohorts ++ [Build_Cohort (extract_instances_in_date_range all ws we) ws we])
        ws' we'
    else inr cohorts.
Proof. done. Qed.

(** The loop runs [n] times when [end_date] lies in the [n]-th week after
    [we], and then returns the [n] weekly cohorts, provided the window
    bounds it computes on the way are representable dates. *)
Lemma cohort_loop_closed n : ∀ fuel all end_date cohorts ws we,
  (n ≤ fuel)%nat →
  (∀ k : nat, (k < n)%nat → we + timedelta_weeks (Z.of_nat k) < end_date) →
  end_date ≤ we + timedelta_weeks (Z.of_nat n) →
  dt_valid ws → ws ≤ we → dt_valid (we + timedelta_weeks (Z.of_nat n)) →
  cohort_loop fuel all end_date cohorts ws we
    = inr (cohorts ++ weekly_cohorts all ws we n).
Proof.
  induction n as [|n IH]; intros fuel all end_date cohorts ws we Hfuel Hlt Hge Hws Hle Hwe.
  - change (timedelta_weeks (Z.of_nat 0)) with 0 in Hge. rewrite Z.add_0_r in Hge.
    change (weekly_cohorts all ws we 0) with (@nil Cohort).
    rewrite (right_id_L [] (++)). destruct fuel as [|fuel]; [done|].
    rewrite cohort_loop_S, bool_decide_eq_false_2 by lia. done.
  - destruct fuel as [|fuel]; [lia|].
    rewrite cohort_loop_S, bool_decide_eq_true_2; last first.
    { specialize (Hlt 0%nat). change (timedelta_weeks (Z.of_nat 0)) with 0 in Hlt. lia. }
    rewrite timedelta_weeks_S in Hge, Hwe.
    assert (0 < timedelta_weeks 1) as Hpos by (vm_compute; done).
    assert (0 ≤ timedelta_weeks (Z.of_nat n)) as Hnn.
    { unfold timedelta_weeks, timedelta_days, US_PER_DAY, US_PER_SECOND. lia. }
    rewrite (dt_add_valid ws); last first.
    { eapply dt_valid_between; [exact Hws|exact Hwe|]. lia. }
    rewrite (dt_add_valid we); last first.
    { eapply dt_valid_between; [exact Hws|exact Hwe|]. lia. }
    simpl. rewrite IH.
    + by rewrite weekly_cohorts_S, <- (assoc_L (++)).
    + lia.
    + intros k Hk. specialize (Hlt (S k)). rewrite timedelta_weeks_S in Hlt. lia.
    + lia.
    + eapply dt_valid_between; [exact Hws|exact Hwe|]. lia.
    + lia.
    + by rewrite <- Z.add_assoc.
Qed.

(** The loop itself raises nothing but the [OverflowError] of a window
    bound past year 9999. *)
Lemma cohort_loop_Err fuel : ∀ all end_date cohorts ws we e,
  cohort_loop fuel all end_date cohorts ws we = inl e → e = OverflowError.
Proof.
  induction fuel as [|fuel IH]; intros all end_date cohorts ws we e; [done|].
  rewrite cohort_loop_S. case_bool_decide; [|done].
  destruct (dt_add ws _) as [e1|ws'] eqn:H1; simpl.
  { intros [= <-]. by apply dt_add_Err in H1 as [-> _]. }
  destruct (dt_add we _) as [e2|we'] eqn:H2; simpl.
  { intros [= <-]. by apply dt_add_Err in H2 as [-> _]. }
  apply IH.
Qed.

(** Cohorts are only ever appended. *)
Lemma cohort_loop_prefix fuel : ∀ all end_date cohorts ws we cs,
  cohort_loop fuel all end_date cohorts ws we = inr cs → cohorts `prefix_of` cs.
Proof.
  induction fuel as [|fuel IH]; intros all end_date cohorts ws we cs.
  { by intros [= <-]. }
  rewrite cohort_loop_S. case_bool_decide; [|by intros [= <-]].
  destruct (dt_add ws _) as [e1|ws'] eqn:H1; simpl; [done|].
  destruct (dt_add we _) as [e2|we'] eqn:H2; simpl; [done|].
  intros Hcs%IH. etrans; [|exact Hcs]. by apply prefix_app_r.
Qed.

Lemma cohort_loop_invariant fuel : ∀ all end_date cohorts ws we cs,
  we = ws + timedelta_days 6 →
  Forall (cohort_ok all) cohorts →
  cohort_loop fuel all end_date cohorts ws we = inr cs →
  Forall (cohort_ok all) cs.
Proof.
  induction fuel as [|fuel IH]; intros all end_date cohorts ws we cs Hwe Hacc.
  { by intros [= <-]. }
  rewrite cohort_loop_S. case_bool_decide; [|by intros [= <-]].
  destruct (dt_add ws _) as [e1|ws'] eqn:H1; simpl; [done|].
  destruct (dt_add we _) as [e2|we'] eqn:H2; simpl; [done|].
  apply dt_add_OK in H1 as [-> _]. apply dt_add_OK in H2 as [-> _].
  apply IH.
  - lia.
  - apply Forall_app. split; [done|]. apply Forall_singleton. done.
Qed.

(** More fuel than [cohort_loop_fuel] changes nothing: the bound is
    enough for the loop to reach its exit. *)
Lemma cohort_loop_fuel_enough fuel : ∀ fuel' all end_date cohorts ws we,
  (cohort_loop_fuel we end_date ≤ fuel)%nat → (fuel ≤ fuel')%nat →
  cohort_loop fuel' all end_date cohorts ws we
    = cohort_loop fuel all end_date cohorts ws we.
Proof.
  induction fuel as [|fuel IH]; intros fuel' all end_date cohorts ws we Hb Hf.
  - assert (¬ we < end_date) as Hexit.
    { unfold cohort_loop_fuel in Hb. intros Hlt.
      assert (0 ≤ (end_date - we) / timedelta_weeks 1); [|lia].
      apply Z.div_pos; [lia|]. vm_compute. done. }
    destruct fuel' as [|fuel']; [done|].
    rewrite cohort_loop_S, bool_decide_eq_false_2 by done. done.
  - destruct fuel' as [|fuel']; [lia|].
    rewrite !cohort_loop_S. case_bool_decide as Hcond; [|done].
    destruct (dt_add ws _) as [e1|ws'] eqn:H1; simpl; [done|].
    destruct (dt_add we _) as [e2|we'] eqn:H2; simpl; [done|].
    apply dt_add_OK in H2 as [-> _]. apply IH; [|lia].
    unfold cohort_loop_fuel in *.
    replace (end_date - (we + timedelta_weeks 1))
      with ((end_date - we) + (-1) * timedelta_weeks 1) by lia.
    rewrite Z.div_add by (vm_compute; done). lia.
Qed.
End cohort_builder.


Section get_cohorts_from_model_facts.
Implicit Types (model : Model) (qs : QuerySet) (cs : list Cohort).

Lemma try_except_raise_other {A} (body : pyresult A) exc replacement :
  body ≠ inl exc → try_except_raise body exc replacement = body.
Proof.
  unfold try_except_raise. destruct body as [e|a]; [|done].
  case_decide; [|done]. congruence.
Qed.

(** With a representable first window, the function is its loop. *)
Lemma get_cohorts_from_model_loop model qs start_date end_date :
  objects_all model = qs →
  dt_valid (start_date + timedelta_days 6) →
  get_cohorts_from_model model start_date end_date =
    cohort_loop (cohort_loop_fuel (start_date + timedelta_days 6) end_date)
      qs end_date [] start_date (start_date + timedelta_days 6).
Proof.
  intros <- Hv. unfold get_cohorts_from_model, get_time_window_from_date.
  rewrite (dt_add_valid _ _ Hv). simpl.
  apply try_except_raise_other. intros Herr.
  by apply cohort_loop_Err in Herr.
Qed.

Lemma get_cohorts_from_model_overflow model start_date end_date :
  ¬ dt_valid (start_date + timedelta_days 6) →
  get_cohorts_from_model model start_date end_date = inl OverflowError.
Proof.
  intros Hv. unfold get_cohorts_from_model, get_time_window_from_date.
  rewrite (dt_add_overflow _ _ Hv). done.
Qed.

(** Whatever the function returns, every cohort is [cohort_ok]. *)
Lemma get_cohorts_from_model_OK model start_date end_date cs :
  get_cohorts_from_model model start_date end_date = inr cs →
  ∃ qs, objects_all model = qs ∧ Forall (cohort_ok qs) cs.
Proof.
  destruct (decide (dt_valid (start_date + timedelta_days 6))) as [Hv|Hv]; last first.
  { by rewrite get_cohorts_from_model_overflow. }
  rewrite (get_cohorts_from_model_loop _ (objects_all model)) by done.
  intros Hloop. exists (objects_all model). split; [done|].
  eapply cohort_loop_invariant; [| |exact Hloop]; done.
Qed.

(** The one exception the function raises is the [OverflowError] of its
    date arithmetic. *)
Lemma get_cohorts_from_model_Err model start_date end_date e :
  get_cohorts_from_model model start_date end_date = inl e → e = OverflowError.
Proof.
  destruct (decide (dt_valid (start_date + timedelta_days 6))) as [Hv|Hv]; last first.
  { rewrite get_cohorts_from_model_overflow by done. congruence. }
  rewrite (get_cohorts_from_model_loop _ (objects_all model)) by done.
  apply cohort_loop_Err.
Qed.
End get_cohorts_from_model_facts.

(** The cohorts are the weekly windows up to the week [end_date] falls in,
    as long as the window bounds the loop computes are representable
    dates. *)
Lemma get_cohorts_from_model_closed model qs start_date end_date (n : nat) :
  objects_all model = qs →
  dt_valid start_date →
  (∀ k : nat, (k < n)%nat →
     start_date + timedelta_days 6 + timedelta_weeks (Z.of_nat k) < end_date) →
  end_date ≤ start_date + timedelta_days 6 + timedelta_weeks (Z.of_nat n) →
  dt_valid (start_date + timedelta_days 6 + timedelta_weeks (Z.of_nat n)) →
  get_cohorts_from_model model start_date end_date
    = inr (weekly_cohorts qs start_date (start_date + timedelta_days 6) n).
Proof.
  intros Hqs Hs Hlt Hge He.
  assert (0 ≤ timedelta_weeks (Z.of_nat n)) as Hnn.
  { unfold timedelta_weeks, timedelta_days, US_PER_DAY, US_PER_SECOND. lia. }
  assert (dt_valid (start_date + timedelta_days 6)) as H6.
  { eapply dt_valid_between; [exact Hs|exact He|].
    unfold timedelta_days, US_PER_DAY, US_PER_SECOND in *. lia. }
  rewrite (get_cohorts_from_model_loop _ qs) by done.
  apply (cohort_loop_closed n _ qs _ []); try done.
  - unfold cohort_loop_fuel. destruct n as [|n]; [lia|].
    specialize (Hlt n (Nat.lt_succ_diag_r n)).
    apply Nat2Z.inj_le. rewrite Z2Nat.id.
    + unfold timedelta_weeks, timedelta_days, US_PER_DAY, US_PER_SECOND in *.
      Z.to_euclidean_division_equations. lia.
    + unfold timedelta_weeks, timedelta_days, US_PER_DAY, US_PER_SECOND in *.
      Z.to_euclidean_division_equations. lia.
  - unfold timedelta_days, US_PER_DAY, US_PER_SECOND. lia.
Qed.

(** C2 (as amended): for every record source, with [qs] the records of
    its collection, and a range of exactly [N] whole weeks,
    [end_date = start_date + 7 * N] days, whose window bounds stay
    representable, [get_cohorts_from_model] returns exactly [N] cohorts:
    the weekly windows number 0 to [N - 1], each six days wide. *)
Theorem whole_weeks_give_one_cohort_per_week model qs start_date N :
  objects_all model = qs →
  0 ≤ N →
  dt_valid start_date →
  dt_valid (start_date + timedelta_days (7 * N + 6)) →
  ∃ cs,
    get_cohorts_from_model model start_date (start_date + timedelta_days (7 * N)) = inr cs
    ∧ cs = weekly_cohorts qs start_date (start_date + timedelta_days 6) (Z.to_nat N)
    ∧ Z.of_nat (length cs) = N.
Proof.
  intros Hqs HN Hs He. eexists. split; [|split; [reflexivity|]].
  - apply get_cohorts_from_model_closed; try done.
    + intros k Hk.
      unfold timedelta_weeks, timedelta_days, US_PER_DAY, US_PER_SECOND. lia.
    + rewrite Z2Nat.id by done.
      unfold timedelta_weeks, timedelta_days, US_PER_DAY, US_PER_SECOND. lia.
    + rewrite Z2Nat.id by done.
      replace (start_date + timedelta_days 6 + timedelta_weeks N)
        with (start_date + timedelta_days (7 * N + 6)); [done|].
      unfold timedelta_weeks, timedelta_days. lia.
  - rewrite length_weekly_cohorts. lia.
Qed.

(** C8 (as amended): for every record source, with [qs] the records of
    its collection, and a representable first window,
    [get_cohorts_from_model] returns the empty list exactly when
    [end_date - start_date] is at most six days. *)
Theorem no_cohort_iff_at_most_six_days model qs start_date end_date :
  objects_all model = qs →
  dt_valid (start_date + timedelta_days 6) →
  get_cohorts_from_model model start_date end_date = inr []
  ↔ end_date - start_date ≤ timedelta_days 6.
Proof.
  intros Hqs Hv. rewrite (get_cohorts_from_model_loop _ qs) by done.
  destruct (decide (start_date + timedelta_days 6 < end_date)) as [Hlt|Hge].
  - split; [|lia]. intros Hloop. exfalso.
    destruct (cohort_loop_fuel _ _) as [|fuel] eqn:Hfuel.
    { unfold cohort_loop_fuel in Hfuel.
      assert (0 ≤ (end_date - (start_date + timedelta_days 6)) / timedelta_weeks 1); [|lia].
      apply Z.div_pos; [lia|]. vm_compute. done. }
    rewrite cohort_loop_S, bool_decide_eq_true_2 in Hloop by done.
    destruct (dt_add start_date _) as [e1|ws'] eqn:H1; simpl in Hloop; [done|].
    destruct (dt_add (start_date + _) _) as [e2|we'] eqn:H2; simpl in Hloop; [done|].
    apply cohort_loop_prefix in Hloop. by apply prefix_nil_not in Hloop.
  - split; [lia|]. intros _.
    destruct (cohort_loop_fuel _ _) as [|fuel]; [done|].
    rewrite cohort_loop_S, bool_decide_eq_false_2 by done. done.
Qed.

(** C4 (as amended): the records of every cohort [get_cohorts_from_model]
    returns are exactly the records of the collection whose creation time
    lies in the closed interval from the cohort's [start_date] to its
    [end_date], both bounds included, in the collection's order. *)
Theorem cohort_records_closed_interval model range_start range_end cs :
  get_cohorts_from_model model range_start range_end = inr cs →
  ∃ qs, objects_all model = qs ∧
    ∀ c, c ∈ cs →
      queryset c = filter (λ i, start_date c ≤ date_created i ≤ end_date c) qs
      ∧ ∀ r, r ∈ queryset c ↔
             r ∈ qs ∧ start_date c ≤ date_created r ≤ end_date c.
Proof.
  intros (qs & Hqs & Hall)%get_cohorts_from_model_OK. exists qs. split; [done|].
  intros c Hc. rewrite Forall_forall in Hall. destruct (Hall c Hc) as [Hq _].
  split; [exact Hq|]. intros r. rewrite Hq. unfold filter_date_created_range.
  rewrite list_elem_of_filter. tauto.
Qed.

(** C6: for every record source, start date and end date,
    [get_cohorts_from_model] does not raise [InvalidUserModel]. The
    handler that turns [model.DoesNotExist] into [InvalidUserModel] is
    never entered, because nothing in the [try] block raises
    [model.DoesNotExist]: [model.objects.all()] and [filter] build lazy
    querysets and the rest is date arithmetic, whose one exception is
    [OverflowError]. Whatever the state of the collection, the call
    returns its cohorts or raises [OverflowError]. *)
Theorem invalid_user_model_is_never_raised model start_date end_date :
  get_cohorts_from_model model start_date end_date ≠ inl InvalidUserModel
  ∧ (∀ e, get_cohorts_from_model model start_date end_date = inl e → e = OverflowError)
  ∧ (get_cohorts_from_model model start_date end_date = inl OverflowError
     ∨ ∃ cs, get_cohorts_from_model model start_date end_date = inr cs
             ∧ Forall (cohort_ok (objects_all model)) cs).
Proof.
  split; [|split].
  - by intros ?%get_cohorts_from_model_Err.
  - intros e. apply get_cohorts_from_model_Err.
  - destruct (get_cohorts_from_model model start_date end_date) as [e|cs] eqn:Hrun.
    + left. by apply get_cohorts_from_model_Err in Hrun as ->.
    + right. exists cs. split; [done|].
      by apply get_cohorts_from_model_OK in Hrun as (? & <- & ?).
Qed.


(** *** Concrete runs of the cohort builder *)

(** A three-week range, 2015-01-05 to 2015-01-26, gives three cohorts
    where C2 announces two. *)
Lemma three_week_range_gives_three_cohorts :
  ∃ cs,
    get_cohorts_from_model signup_model (mk_date 2015 1 5)
      (mk_date 2015 1 5 + timedelta_days (7 * 3)) = inr cs
    ∧ length cs = 3%nat
    ∧ Z.of_nat (length cs) ≠ 3 - 1.
Proof. eexists. split; [vm_compute; reflexivity|]. split; [reflexivity|]. simpl. lia. Qed.

Lemma whole_weeks_give_one_cohort_per_week_witness :
  objects_all signup_model = signups
  ∧ 0 ≤ 3
  ∧ dt_valid (mk_date 2015 1 5)
  ∧ dt_valid (mk_date 2015 1 5 + timedelta_days (7 * 3 + 6))
  ∧ ∃ cs,
      get_cohorts_from_model signup_model (mk_date 2015 1 5)
        (mk_date 2015 1 5 + timedelta_days (7 * 3)) = inr cs
      ∧ cs = weekly_cohorts signups (mk_date 2015 1 5)
               (mk_date 2015 1 5 + timedelta_days 6) (Z.to_nat 3)
      ∧ Z.of_nat (length cs) = 3.
Proof.
  assert (dt_valid (mk_date 2015 1 5)) as H1 by dt_compute.
  assert (dt_valid (mk_date 2015 1 5 + timedelta_days (7 * 3 + 6))) as H2 by dt_compute.
  split; [reflexivity|]. split; [lia|]. split; [exact H1|]. split; [exact H2|].
  apply (whole_weeks_give_one_cohort_per_week signup_model signups (mk_date 2015 1 5) 3);
    [reflexivity|lia|exact H1|exact H2].
Defined.

(** From Monday 2015-01-05 at midnight to Sunday 2015-01-11 at noon is six
    and a half days, less than a week, and yet one cohort comes back where
    C8 announces none. *)
Lemma six_and_a_half_days_give_a_cohort :
  mk_datetime 2015 1 11 12 0 0 0 - mk_date 2015 1 5 < timedelta_weeks 1
  ∧ ∃ c,
      get_cohorts_from_model signup_model (mk_date 2015 1 5)
        (mk_datetime 2015 1 11 12 0 0 0) = inr [c].
Proof. split; [vm_compute; reflexivity|]. eexists. vm_compute. reflexivity. Qed.

Lemma no_cohort_iff_at_most_six_days_witness :
  objects_all signup_model = signups
  ∧ dt_valid (mk_date 2015 1 5 + timedelta_days 6)
  ∧ (get_cohorts_from_model signup_model (mk_date 2015 1 5) (mk_date 2015 1 11) = inr []
     ↔ mk_date 2015 1 11 - mk_date 2015 1 5 ≤ timedelta_days 6).
Proof.
  assert (dt_valid (mk_date 2015 1 5 + timedelta_days 6)) as H1 by dt_compute.
  split; [reflexivity|]. split; [exact H1|].
  apply (no_cohort_iff_at_most_six_days signup_model signups); [reflexivity|exact H1].
Defined.

(** The record created on Sunday 2015-01-11 at midnight, the very end of
    the first window, is in the first cohort, where C4 excludes it. *)
Lemma record_at_window_end_is_included :
  ∃ cs c r,
    get_cohorts_from_model signup_model (mk_date 2015 1 5) (mk_date 2015 1 19) = inr cs
    ∧ c ∈ cs
    ∧ r ∈ queryset c
    ∧ date_created r = end_date c
    ∧ ¬ (start_date c ≤ date_created r < end_date c).
Proof.
  eexists _, _, {| pk := 3; date_created := mk_date 2015 1 11 |}.
  split; [vm_compute; reflexivity|].
  split; [apply list_elem_of_here|].
  split; [simpl; do 2 apply list_elem_of_further; apply list_elem_of_here|].
  split; [vm_compute; reflexivity|].
  vm_compute. intros [_ H]. discriminate H.
Qed.

Lemma cohort_records_closed_interval_witness :
  get_cohorts_from_model signup_model (mk_date 2015 1 5) (mk_date 2015 1 12)
    = inr [ {| queryset := signups;
               start_date := mk_date 2015 1 5;
               end_date := mk_date 2015 1 11 |} ]
  ∧ ∃ qs, objects_all signup_model = qs ∧
      ∀ c, c ∈ [ {| queryset := signups;
                    start_date := mk_date 2015 1 5;
                    end_date := mk_date 2015 1 11 |} ] →
        queryset c = filter (λ i, start_date c ≤ date_created i ≤ end_date c) qs
        ∧ ∀ r, r ∈ queryset c ↔
               r ∈ qs ∧ start_date c ≤ date_created r ≤ end_date c.
Proof.
  assert (get_cohorts_from_model signup_model (mk_date 2015 1 5) (mk_date 2015 1 12)
    = inr [ {| queryset := signups;
               start_date := mk_date 2015 1 5;
               end_date := mk_date 2015 1 11 |} ]) as Hrun by (vm_compute; reflexivity).
  split; [exact Hrun|].
  exact (cohort_records_closed_interval signup_model _ _ _ Hrun).
Defined.

(** In the last six days of year 9999 the end of the first window is no
    [datetime] any more: the call raises [OverflowError], whatever the
    model and the end date are. *)
Example get_cohorts_from_model_end_of_9999 model end_date :
  get_cohorts_from_model model (mk_date 9999 12 28) end_date = inl OverflowError.
Proof.
  apply get_cohorts_from_model_overflow. vm_compute. intros [_ H]. by apply H.
Qed.


(** ** The metric loader *)

#[global] Instance pair_le_total : Total pair_le.
Proof. intros p q. unfold pair_le. apply (total String.le). Qed.

#[global] Instance pair_le_trans : Transitive pair_le.
Proof. intros p q r. unfold pair_le. apply (transitivity (R := String.le)). Qed.

#[local] Set Warnings "-clear-no-such-hyp".

Section metric_loader.
Implicit Types (object ns : namespace) (l ms : list (string * member))
  (st : ImportSystem).

(** *** [sorted] and [getmembers] *)

Lemma sorted_Permutation l : sorted l ≡ₚ l.
Proof. apply merge_sort_Permutation. Qed.

Lemma sorted_StronglySorted l : StronglySorted pair_le (sorted l).
Proof. apply StronglySorted_merge_sort; apply _. Qed.

Lemma NoDup_names_inj l p q : NoDup l.*1 → p ∈ l → q ∈ l → p.1 = q.1 → p = q.
Proof.
  induction l as [|x l IH]; csimpl; intros Hnd Hp Hq Heq.
  { by apply not_elem_of_nil in Hp. }
  apply NoDup_cons in Hnd as [Hx Hnd].
  apply elem_of_cons in Hp as [->|Hp]; apply elem_of_cons in Hq as [->|Hq].
  - done.
  - destruct Hx. rewrite Heq. by apply list_elem_of_fmap_2.
  - destruct Hx. rewrite <- Heq. by apply list_elem_of_fmap_2.
  - by apply IH.
Qed.

(** Sorting a list that is sorted already, with pairwise distinct names,
    gives the list back. *)
Lemma sorted_id l : StronglySorted pair_le l → NoDup l.*1 → sorted l = l.
Proof.
  intros Hs Hnd. apply (StronglySorted_unique_strong pair_le).
  - intros p q Hp Hq Hpq Hqp. rewrite sorted_Permutation in Hp.
    assert (p.1 = q.1) as Hname by (by apply (anti_symm String.le)).
    by apply (NoDup_names_inj l).
  - apply sorted_StronglySorted.
  - done.
  - apply sorted_Permutation.
Qed.

Lemma getmembers_elem_of object predicate name m :
  (name, m) ∈ getmembers object predicate
  ↔ object !! name = Some m ∧ predicate m = true.
Proof.
  unfold getmembers. rewrite sorted_Permutation, list_elem_of_filter.
  rewrite elem_of_map_to_list. simpl. tauto.
Qed.

Lemma getmembers_NoDup object predicate : NoDup (getmembers object predicate).*1.
Proof.
  unfold getmembers. rewrite sorted_Permutation.
  apply (sublist_NoDup _ (map_to_list object).*1).
  - apply NoDup_fst_map_to_list.
  - apply fmap_sublist, sublist_filter.
Qed.

Lemma getmembers_sorted object predicate :
  StronglySorted pair_le (getmembers object predicate).
Proof. apply sorted_StronglySorted. Qed.

Lemma StronglySorted_name_lt l :
  StronglySorted pair_le l → NoDup l.*1 → StronglySorted name_lt l.
Proof.
  induction 1 as [|p l Hs IH Hall]; csimpl; intros Hnd; [constructor|].
  apply NoDup_cons in Hnd as [Hp Hnd]. constructor; [by apply IH|].
  rewrite Forall_forall in Hall |- *. intros q Hq.
  apply strict_spec_alt. split; [by apply Hall|].
  intros Heq. apply Hp. rewrite Heq. by apply list_elem_of_fmap_2.
Qed.

Lemma get_sorted_metric_function_tuples_getmembers object :
  get_sorted_metric_function_tuples object = getmembers object isfunction.
Proof.
  unfold get_sorted_metric_function_tuples.
  apply sorted_id; [apply getmembers_sorted|apply getmembers_NoDup].
Qed.

Lemma getmembers_nil object predicate :
  getmembers object predicate = []
  ↔ ∀ name m, object !! name = Some m → predicate m = false.
Proof.
  split.
  - intros Hnil name m Hm. destruct (predicate m) eqn:Hp; [|done].
    assert ((name, m) ∈ getmembers object predicate) as Hin
      by (by apply getmembers_elem_of).
    rewrite Hnil in Hin. by apply not_elem_of_nil in Hin.
  - intros Hnone. destruct (getmembers object predicate) as [|[name m] l] eqn:Hg; [done|].
    assert ((name, m) ∈ getmembers object predicate) as Hin
      by (rewrite Hg; apply list_elem_of_here).
    apply getmembers_elem_of in Hin as [Hm Hp].
    rewrite (Hnone _ _ Hm) in Hp. done.
Qed.

Lemma isfunction_true m : isfunction m = true ↔ ∃ f, m = MFunction f.
Proof.
  destruct m as [f|f|]; simpl; split; try done; try (intros [g [=]]). eauto.
Qed.

Lemma getmembers_isfunction_nil object :
  getmembers object isfunction = [] ↔ ¬ has_function_member object.
Proof.
  rewrite getmembers_nil. unfold has_function_member. split.
  - intros Hnone (name & f & Hf). by apply Hnone in Hf.
  - intros Hno name m Hm. destruct (isfunction m) eqn:Hp; [|done].
    apply isfunction_true in Hp as [f ->]. destruct Hno. eauto.
Qed.

Lemma getmembers_isfunction_cons object p l :
  getmembers object isfunction = p :: l → has_function_member object.
Proof.
  intros Hg. destruct p as [name m].
  assert ((name, m) ∈ getmembers object isfunction) as Hin
    by (rewrite Hg; apply list_elem_of_here).
  apply getmembers_elem_of in Hin as [Hm [f ->]%isfunction_true].
  by exists name, f.
Qed.

(** *** [import_module] *)

Lemma import_module_result name st :
  (import_module name st).1 =
    if is_relative name then inl TypeError
    else if decide (name = "") then inl ValueError
    else
      match sys_modules st !! name with
      | Some m => inr m
      | None =>
          match (finder st name).1 with
          | Loaded m => inr m
          | LoadImportError => inl ImportError
          | LoadError msg => inl (OtherError msg)
          end
      end.
Proof.
  unfold import_module. destruct (is_relative name); [done|].
  case_decide; [done|]. destruct (sys_modules st !! name); [done|].
  by destruct (finder st name) as [[m| |msg] along].
Qed.

(** The exceptions an import raises. *)
Lemma import_module_Err name st e :
  (import_module name st).1 = inl e →
  e = TypeError ∨ e = ValueError ∨ e = ImportError ∨ ∃ msg, e = OtherError msg.
Proof.
  rewrite import_module_result. destruct (is_relative name); [naive_solver|].
  case_decide; [naive_solver|]. destruct (sys_modules st !! name); [done|].
  destruct (finder st name).1; naive_solver.
Qed.

(** [ImportError] is the exception of an absolute, non-empty name that is
    not cached and that the finder fails to import. *)
Lemma import_module_ImportError name st :
  (import_module name st).1 = inl ImportError
  ↔ is_relative name = false ∧ name ≠ ""
    ∧ sys_modules st !! name = None ∧ (finder st name).1 = LoadImportError.
Proof.
  rewrite import_module_result. destruct (is_relative name); [naive_solver|].
  case_decide; [naive_solver|]. destruct (sys_modules st !! name); [naive_solver|].
  destruct (finder st name).1; naive_solver.
Qed.

Lemma resolve_Some name st m :
  resolve name st = Some m ↔ (import_module name st).1 = inr m.
Proof. unfold resolve. destruct (import_module name st).1; naive_solver. Qed.

Lemma resolve_None name st :
  resolve name st = None ↔ ∃ e, (import_module name st).1 = inl e.
Proof. unfold resolve. destruct (import_module name st).1; naive_solver. Qed.

(** A name that resolves is an absolute, non-empty name, and its module
    is the cached one or, failing that, the one the finder loads. *)
Lemma resolve_Some_inv name st m :
  resolve name st = Some m →
  is_relative name = false ∧ name ≠ ""
  ∧ (sys_modules st !! name = Some m
     ∨ sys_modules st !! name = None ∧ (finder st name).1 = Loaded m).
Proof.
  rewrite resolve_Some, import_module_result.
  destruct (is_relative name); [done|]. case_decide; [done|].
  destruct (sys_modules st !! name); [naive_solver|].
  destruct (finder st name).1; naive_solver.
Qed.

(** Importing again a module that was imported, in the state the first
    import left, gives the same module and leaves the state as it is. *)
Lemma import_module_again name st m :
  (import_module name st).1 = inr m →
  import_module name (import_module name st).2
    = (inr m, (import_module name st).2).
Proof.
  unfold import_module. destruct (is_relative name) eqn:Hrel; [done|].
  case_decide as Hname; [done|].
  destruct (sys_modules st !! name) as [m'|] eqn:Hc; simpl.
  { intros [= ->]. by rewrite Hc. }
  destruct (finder st name) as [[m'| |msg] along]; simpl; try done.
  intros [= ->]. by rewrite lookup_insert_eq.
Qed.

(** An import adds modules to the cache and changes none that is there. *)
Lemma import_module_keeps_cache name st name' m' :
  sys_modules st !! name' = Some m' →
  sys_modules (import_module name st).2 !! name' = Some m'.
Proof.
  intros Hc. unfold import_module. destruct (is_relative name); [done|].
  case_decide; [done|].
  destruct (sys_modules st !! name) as [m|] eqn:Hn; [done|].
  assert (name ≠ name') as Hne by congruence.
  assert ((sys_modules st ∪ (finder st name).2) !! name' = Some m') as Hu
    by (by apply lookup_union_Some_l).
  destruct (finder st name) as [[m| |msg] along]; simpl in *; [|done|done].
  by rewrite lookup_insert_ne.
Qed.

(** *** [get_metrics_from_file] *)

Lemma get_metrics_from_file_result metric_file st :
  (get_metrics_from_file metric_file st).1 =
    match (import_module metric_file st).1 with
    | inl e => inl (if decide (e = ImportError) then NoMetricFileFound else e)
    | inr object =>
        match getmembers object isfunction with
        | [] => inl NoMetricFunctionsFound
        | ms => inr ms
        end
    end.
Proof.
  unfold get_metrics_from_file.
  destruct (import_module metric_file st) as [[e|object] st']; simpl.
  - by case_decide.
  - rewrite get_sorted_metric_function_tuples_getmembers.
    by destruct (getmembers object isfunction).
Qed.

Lemma get_metrics_from_file_resolved metric_file st object :
  resolve metric_file st = Some object →
  (get_metrics_from_file metric_file st).1 =
    match getmembers object isfunction with
    | [] => inl NoMetricFunctionsFound
    | ms => inr ms
    end.
Proof.
  intros Hres%resolve_Some. by rewrite get_metrics_from_file_result, Hres.
Qed.

Lemma get_metrics_from_file_state metric_file st :
  (get_metrics_from_file metric_file st).2 = (import_module metric_file st).2.
Proof.
  unfold get_metrics_from_file. by destruct (import_module metric_file st).
Qed.

Lemma get_metrics_from_file_again metric_file st object :
  resolve metric_file st = Some object →
  get_metrics_from_file metric_file (get_metrics_from_file metric_file st).2
    = get_metrics_from_file metric_file st.
Proof.
  intros Hres%resolve_Some.
  pose proof (import_module_again _ _ _ Hres) as Ha.
  rewrite get_metrics_from_file_state. unfold get_metrics_from_file.
  rewrite Ha. destruct (import_module metric_file st) as [r st'].
  simpl in *. by subst r.
Qed.
End metric_loader.

(** C5 (as amended): [get_metrics_from_file] raises [NoMetricFileFound]
    exactly when the import of the identifier raises [ImportError], that
    is when the identifier is an absolute, non-empty name that is not
    cached and that the import machinery fails to import; any other
    exception of the import goes through unchanged, [ValueError] for the
    empty identifier and [TypeError] for a relative one among them. It
    raises [NoMetricFunctionsFound] exactly when the identifier resolves to
    a module none of whose members is a plain function (classes and other
    callables do not count), and returns a non-empty list of metrics
    exactly when it resolves to a module with a function. *)
Theorem get_metrics_from_file_outcomes metric_file st :
  ((get_metrics_from_file metric_file st).1 = inl NoMetricFileFound
     ↔ is_relative metric_file = false ∧ metric_file ≠ ""
       ∧ sys_modules st !! metric_file = None
       ∧ (finder st metric_file).1 = LoadImportError)
  ∧ ((get_metrics_from_file metric_file st).1 = inl NoMetricFunctionsFound
     ↔ ∃ object, resolve metric_file st = Some object ∧ ¬ has_function_member object)
  ∧ ((∃ metric metrics, (get_metrics_from_file metric_file st).1 = inr (metric :: metrics))
     ↔ ∃ object, resolve metric_file st = Some object ∧ has_function_member object)
  ∧ (∀ e, e ≠ ImportError →
       ((get_metrics_from_file metric_file st).1 = inl e
        ↔ (import_module metric_file st).1 = inl e
          ∨ e = NoMetricFileFound ∧ (import_module metric_file st).1 = inl ImportError
          ∨ e = NoMetricFunctionsFound
            ∧ ∃ object, resolve metric_file st = Some object
                        ∧ ¬ has_function_member object))
  ∧ (get_metrics_from_file "" st).1 = inl ValueError
  ∧ (∀ name, (get_metrics_from_file (String "." name) st).1 = inl TypeError).
Proof.
  rewrite <- import_module_ImportError.
  assert (∀ object, resolve metric_file st = Some object
                    ↔ (import_module metric_file st).1 = inr object) as Hres
    by (intros; apply resolve_Some).
  setoid_rewrite Hres. clear Hres.
  split; [|split; [|split; [|split; [|split]]]]; try reflexivity.
  all: rewrite get_metrics_from_file_result.
  all: pose proof (import_module_Err metric_file st) as Herr.
  all: destruct (import_module metric_file st).1 as [e|object].
  all: try (destruct (Herr e eq_refl) as [->|[->|[->|[msg ->]]]]).
  all: try (destruct (getmembers object isfunction) as [|metric metrics] eqn:Hg;
            [assert (¬ has_function_member object)
               by (by apply getmembers_isfunction_nil)
            |assert (has_function_member object)
               by (by eapply getmembers_isfunction_cons)]).
  all: try case_decide; naive_solver.
Qed.


(** ** Display names *)

Section display_names.
Implicit Types (s w : string) (ws : list string) (c : ascii).

Lemma split_underscore_cons s : ∃ w ws, split_underscore s = w :: ws.
Proof.
  induction s as [|c s (w & ws & IH)]; simpl; [by eauto|].
  destruct (Ascii.eqb c "_"); [by eauto|]. rewrite IH. by eauto.
Qed.

Lemma join_space_cons_char c w ws :
  join_space (String c w :: ws) = String c (join_space (w :: ws)).
Proof. by destruct ws. Qed.

(** Title-casing after a cased character leaves the first piece as it
    is; title-casing after an uncased one capitalizes it too. *)
Lemma title_from_words s :
  snake_lower s = true →
  Str.title_from false (Str.replace "_" " " s)
    = join_space (capitalize <$> split_underscore s)
  ∧ ∀ w ws, split_underscore s = w :: ws →
      Str.title_from true (Str.replace "_" " " s)
        = join_space (w :: (capitalize <$> ws)).
Proof.
  induction s as [|c s IH]; simpl.
  { intros _. split; [done|]. by intros w ws [= <- <-]. }
  intros [Hc Hs]%andb_true_iff. destruct (IH Hs) as [IH1 IH2].
  destruct (split_underscore_cons s) as (w' & ws' & Hsplit).
  destruct (Ascii.eqb c "_") eqn:Hu.
  - apply Ascii.eqb_eq in Hu as ->. simpl. rewrite IH1, Hsplit. split.
    + reflexivity.
    + intros w ws [= <- <-]. reflexivity.
  - rewrite orb_false_r in Hc. rewrite Hc, Hsplit, (IH2 _ _ Hsplit). split.
    + change (capitalize <$> String c w' :: ws')
        with (String (Str.toupper c) w' :: (capitalize <$> ws')).
      by rewrite join_space_cons_char.
    + intros w ws [= <- <-]. by destruct (capitalize <$> ws').
Qed.

(** *** Title case, character by character *)

Lemma islower_not_isupper c : Str.islower c = true → Str.isupper c = false.
Proof.
  unfold Str.islower, Str.isupper.
  intros [H1%Nat.leb_le H2%Nat.leb_le]%andb_true_iff.
  apply andb_false_iff. right. apply Nat.leb_gt. lia.
Qed.

(** The alphabet written out and the character codes [str.title] works
    on give the same letters and the same case changes. *)
Lemma is_letter_cased c : is_letter c = Str.islower c || Str.isupper c.
Proof. destruct c as [[] [] [] [] [] [] [] []]; vm_compute; reflexivity. Qed.

Lemma upper_case_toupper c : upper_case c = Str.toupper c.
Proof. destruct c as [[] [] [] [] [] [] [] []]; vm_compute; reflexivity. Qed.

Lemma lower_case_tolower c : lower_case c = Str.tolower c.
Proof. destruct c as [[] [] [] [] [] [] [] []]; vm_compute; reflexivity. Qed.

Lemma title_from_display s : ∀ b,
  String.length (Str.title_from b (Str.replace "_" " " s)) = String.length s
  ∧ ∀ (i : nat) c, String.get i s = Some c →
      String.get i (Str.title_from b (Str.replace "_" " " s)) =
        Some (if Ascii.eqb c "_" then " "%char
              else if is_letter c then
                if match i with O => negb b | S _ => starts_word i s end
                then upper_case c else lower_case c
              else c).
Proof.
  induction s as [|a s IH]; intros b; [done|].
  cbn [Str.replace]. destruct (Ascii.eqb a "_") eqn:Hu.
  - apply Ascii.eqb_eq in Hu as ->. cbn [Str.title_from].
    change (Str.islower " ") with false. change (Str.isupper " ") with false.
    cbv iota.
    destruct (IH false) as [Hlen Hget]. split; [cbn; by rewrite Hlen|].
    intros [|i] c.
    + by intros [= <-].
    + intros Hc. cbn in Hc |- *. rewrite (Hget i c Hc). by destruct i.
  - cbn [Str.title_from].
    pose proof (is_letter_cased a) as Ha.
    destruct (Str.islower a) eqn:Hl; [|destruct (Str.isupper a) eqn:Hup].
    + destruct (IH true) as [Hlen Hget]. split; [cbn; by rewrite Hlen|].
      intros [|i] c.
      * intros [= <-]. cbn [String.get]. rewrite Hu, Ha. cbn [orb].
        rewrite upper_case_toupper, lower_case_tolower.
        destruct b; [|done]. cbn [negb]. unfold Str.tolower.
        by rewrite (islower_not_isupper _ Hl).
      * intros Hc. cbn [String.get] in Hc |- *. rewrite (Hget i c Hc).
        destruct i; [|done]. cbn [starts_word String.get]. by rewrite Ha.
    + destruct (IH true) as [Hlen Hget]. split; [cbn; by rewrite Hlen|].
      intros [|i] c.
      * intros [= <-]. cbn [String.get]. rewrite Hu, Ha. cbn [orb].
        rewrite upper_case_toupper, lower_case_tolower.
        destruct b; [done|]. cbn [negb]. unfold Str.toupper. by rewrite Hl.
      * intros Hc. cbn [String.get] in Hc |- *. rewrite (Hget i c Hc).
        destruct i; [|done]. cbn [starts_word String.get]. by rewrite Ha.
    + destruct (IH false) as [Hlen Hget]. split; [cbn; by rewrite Hlen|].
      intros [|i] c.
      * intros [= <-]. cbn [String.get]. by rewrite Hu, Ha.
      * intros Hc. cbn [String.get] in Hc |- *. rewrite (Hget i c Hc).
        destruct i; [|done]. cbn [starts_word String.get]. by rewrite Ha.
Qed.

(** [snake_case_to_title] computes the display name. *)
Lemma snake_case_to_title_is_display_name s :
  is_display_name s (snake_case_to_title s).
Proof.
  destruct (title_from_display s false) as [Hlen Hget]. split; [done|].
  intros i c Hc. unfold snake_case_to_title, Str.title, display_char.
  rewrite (Hget i c Hc). by destruct i.
Qed.

(** A name has one display name. *)
Lemma is_display_name_unique s out1 out2 :
  is_display_name s out1 → is_display_name s out2 → out1 = out2.
Proof.
  intros [Hlen1 Hget1] [Hlen2 Hget2].
  assert (∀ i, String.get i out1 = String.get i out2) as Hext.
  { intros i. destruct (String.get i s) as [c|] eqn:Hc.
    - by rewrite (Hget1 i c Hc), (Hget2 i c Hc).
    - assert (∀ t, String.length t = String.length s → String.get i t = None) as Hnone.
      { clear -Hc. revert i Hc. induction s as [|a s IH]; intros i Hc [|a' t] Hl;
          try done. destruct i as [|i]; [done|]. cbn in *. apply (IH i); [done|lia]. }
      by rewrite !Hnone. }
  clear -Hext. revert out2 Hext.
  induction out1 as [|a out1 IH]; intros [|a' out2] Hext.
  - done.
  - specialize (Hext 0%nat). done.
  - specialize (Hext 0%nat). done.
  - pose proof (Hext 0%nat) as [= ->]. f_equal. apply IH.
    intros i. apply (Hext (S i)).
Qed.

(** X21: on snake-case names [snake_case_to_title] does what the
    specification words: it capitalizes the pieces between the
    underscores and joins them with spaces. *)
Lemma snake_case_to_title_words s :
  snake_lower s = true → snake_case_to_title s = words_capitalized s.
Proof. intros Hs. by apply title_from_words. Qed.

Example example_metric_title : snake_case_to_title "example_metric" = "Example Metric".
Proof. reflexivity. Qed.

(** Beyond snake case [str.title] goes its own way: it lower-cases
    letters inside a word and upper-cases a letter that follows a
    digit. *)
Example title_beyond_snake_case :
  snake_case_to_title "countUsers_day7x" = "Countusers Day7X"
  ∧ words_capitalized "countUsers_day7x" = "CountUsers Day7x".
Proof. split; reflexivity. Qed.
End display_names.


(** A module holding the class [timedelta] and nothing else resolves and
    has a callable member, and [NoMetricFunctionsFound] is raised all the
    same: C5 ties that exception to the absence of callable members. *)
Lemma class_only_module_raises_no_metric_functions :
  resolve "helpers" helpers_imports = Some helpers_module
  ∧ has_callable_member helpers_module
  ∧ (get_metrics_from_file "helpers" helpers_imports).1 = inl NoMetricFunctionsFound
  ∧ ¬ ((get_metrics_from_file "helpers" helpers_imports).1 = inl NoMetricFunctionsFound
       ↔ ∃ object, resolve "helpers" helpers_imports = Some object
                   ∧ ¬ has_callable_member object).
Proof.
  assert (has_callable_member helpers_module) as Hc.
  { exists "timedelta", (MCallable (λ _ _ _, inl TypeError)). split; reflexivity. }
  assert ((get_metrics_from_file "helpers" helpers_imports).1 = inl NoMetricFunctionsFound)
    as Hr by (vm_compute; reflexivity).
  split; [reflexivity|]. split; [exact Hc|]. split; [exact Hr|].
  intros [Hiff _]. destruct (Hiff Hr) as (object & [= <-] & Hno). by apply Hno.
Qed.

Lemma get_metrics_from_file_OK metric_file st metrics st' :
  get_metrics_from_file metric_file st = (inr metrics, st') →
  ∃ object, resolve metric_file st = Some object
    ∧ metrics = getmembers object isfunction
    ∧ get_metrics_from_file metric_file st' = (inr metrics, st').
Proof.
  intros Hg.
  pose proof (get_metrics_from_file_result metric_file st) as Hr.
  rewrite Hg in Hr. simpl in Hr.
  destruct (import_module metric_file st).1 as [e|object] eqn:Hi; [done|].
  apply resolve_Some in Hi.
  pose proof (get_metrics_from_file_again metric_file st object Hi) as Ha.
  rewrite Hg in Ha. simpl in Ha.
  exists object. split; [done|]. split; [|done].
  destruct (getmembers object isfunction); by simplify_eq.
Qed.

(** C7: when the identifier resolves to a module with at least one
    function, [get_metrics_from_file] returns the (name, function) pairs of
    exactly the function members of that module, in strictly increasing
    lexicographic order of their names; a second call, made in the state
    the first one left, returns the same list and leaves the state as it
    is. *)
Theorem get_metrics_from_file_sorted_and_repeatable metric_file st object :
  resolve metric_file st = Some object →
  has_function_member object →
  ∃ metrics st',
    get_metrics_from_file metric_file st = (inr metrics, st')
    ∧ StronglySorted name_lt metrics
    ∧ (∀ name m, (name, m) ∈ metrics ↔ object !! name = Some m ∧ isfunction m = true)
    ∧ get_metrics_from_file metric_file st' = (inr metrics, st').
Proof.
  intros Hres Hfun.
  pose proof (get_metrics_from_file_resolved metric_file st object Hres) as Hr.
  destruct (getmembers object isfunction) as [|metric metrics] eqn:Hg.
  { by apply getmembers_isfunction_nil in Hg. }
  destruct (get_metrics_from_file metric_file st) as [r st'] eqn:Hrun.
  simpl in Hr. subst r. exists (metric :: metrics), st'.
  split; [done|]. rewrite <- Hg. split; [|split].
  - apply StronglySorted_name_lt; [apply getmembers_sorted|apply getmembers_NoDup].
  - intros name m. apply getmembers_elem_of.
  - rewrite Hg. by apply get_metrics_from_file_OK in Hrun as (? & _ & _ & ?).
Qed.

Lemma get_metrics_from_file_sorted_and_repeatable_witness :
  resolve "django_cohort_analysis.metrics" installed_package = Some metrics_module
  ∧ has_function_member metrics_module
  ∧ ∃ metrics st',
      get_metrics_from_file "django_cohort_analysis.metrics" installed_package
        = (inr metrics, st')
      ∧ StronglySorted name_lt metrics
      ∧ (∀ name m, (name, m) ∈ metrics
                   ↔ metrics_module !! name = Some m ∧ isfunction m = true)
      ∧ get_metrics_from_file "django_cohort_analysis.metrics" st' = (inr metrics, st').
Proof.
  assert (resolve "django_cohort_analysis.metrics" installed_package = Some metrics_module)
    as H1 by reflexivity.
  assert (has_function_member metrics_module) as H2.
  { exists "example_metric", example_metric. reflexivity. }
  split; [exact H1|]. split; [exact H2|].
  exact (get_metrics_from_file_sorted_and_repeatable _ _ _ H1 H2).
Defined.

(** ** The cohort analyzer *)

Section analyzer.
Implicit Types (c cohort : Cohort) (metrics : list (string * member))
  (d report : CohortReport) (entries : list AnalysisEntry).

Lemma Forall2_impl_elem_of {A B} (P Q : A → B → Prop) (l : list A) (k : list B) :
  Forall2 P l k → (∀ x y, x ∈ l → P x y → Q x y) → Forall2 Q l k.
Proof.
  induction 1 as [|x y l k Hxy _ IH]; intros Himpl; constructor.
  - apply Himpl; [by left|done].
  - apply IH. intros x' y' Hin. apply Himpl. by right.
Qed.

Lemma Forall_exists_Forall2 {A B} (P : A → B → Prop) (l : list A) :
  Forall (λ x, ∃ y, P x y) l → ∃ k, Forall2 P l k.
Proof.
  induction 1 as [|x l [y Hy] _ [k Hk]].
  - exists []. constructor.
  - exists (y :: k). by constructor.
Qed.

Lemma map_metric_to_cohort_OK metric c range_start range_end entry :
  map_metric_to_cohort metric c range_start range_end = inr entry
  ↔ function_name entry = snake_case_to_title metric.1
    ∧ call metric.2 c (start_date c) range_end = inr (analysis_result entry).
Proof.
  unfold map_metric_to_cohort.
  destruct (call metric.2 c (start_date c) range_end) as [e|v]; simpl.
  - split; [done|]. intros [_ [=]].
  - split.
    + intros [= <-]. done.
    + destruct entry as [fn res]. simpl. intros [-> [= ->]]. done.
Qed.

Lemma metrics_loop_closed metrics : ∀ c range_start range_end d entries,
  Forall2 (λ metric entry,
     map_metric_to_cohort metric c range_start range_end = inr entry)
    metrics entries →
  metrics_loop metrics c range_start range_end d
    = inr {| born_week := born_week d; analysis := analysis d ++ entries |}.
Proof.
  induction metrics as [|metric metrics IH]; intros c rs re d entries Hall.
  - apply Forall2_nil_inv_l in Hall as ->. destruct d. simpl.
    by rewrite (right_id_L [] (++)).
  - apply Forall2_cons_inv_l in Hall as (entry & entries' & Hentry & Hall & ->).
    simpl. rewrite Hentry. simpl. rewrite (IH _ _ _ _ entries') by done.
    simpl. by rewrite <- (assoc_L (++)).
Qed.

Lemma cohorts_loop_closed cohorts : ∀ metrics range_start range_end acc reports,
  Forall2 (λ c report,
     metrics_loop metrics c range_start range_end (create_default_dict_for_cohort c)
       = inr report)
    cohorts reports →
  cohorts_loop cohorts metrics range_start range_end acc = inr (acc ++ reports).
Proof.
  induction cohorts as [|c cohorts IH]; intros metrics rs re acc reports Hall.
  - apply Forall2_nil_inv_l in Hall as ->. simpl. by rewrite (right_id_L [] (++)).
  - apply Forall2_cons_inv_l in Hall as (report & reports' & Hrep & Hall & ->).
    simpl. rewrite Hrep. simpl. rewrite (IH _ _ _ _ reports') by done.
    by rewrite <- (assoc_L (++)).
Qed.

(** The [start_date] argument is handed down to [map_metric_to_cohort],
    which does not read it. *)
Lemma map_metric_to_cohort_start_date metric c s1 s2 range_end :
  map_metric_to_cohort metric c s1 range_end
    = map_metric_to_cohort metric c s2 range_end.
Proof. reflexivity. Qed.

Lemma metrics_loop_start_date metrics : ∀ c s1 s2 range_end d,
  metrics_loop metrics c s1 range_end d = metrics_loop metrics c s2 range_end d.
Proof.
  induction metrics as [|metric metrics IH]; intros c s1 s2 re d; [done|].
  simpl. rewrite (map_metric_to_cohort_start_date metric c s1 s2).
  destruct (map_metric_to_cohort metric c s2 re); simpl; [done|]. apply IH.
Qed.

Lemma cohorts_loop_start_date cohorts : ∀ metrics s1 s2 range_end acc,
  cohorts_loop cohorts metrics s1 range_end acc
    = cohorts_loop cohorts metrics s2 range_end acc.
Proof.
  induction cohorts as [|c cohorts IH]; intros metrics s1 s2 re acc; [done|].
  simpl. rewrite (metrics_loop_start_date metrics c s1 s2).
  destruct (metrics_loop metrics c s2 re _); simpl; [done|]. apply IH.
Qed.
End analyzer.

(** The reports of a run in which the metric source loads and every
    metric returns on every cohort, in terms of the functions the run
    calls. *)
Lemma analyze_cohorts_closed cohorts metric_file range_start range_end st metrics st' :
  get_metrics_from_file metric_file st = (inr metrics, st') →
  (∀ c metric, c ∈ cohorts → metric ∈ metrics →
     is_ok (call metric.2 c (start_date c) range_end)) →
  StronglySorted name_lt metrics
  ∧ ∃ reports,
      analyze_cohorts cohorts metric_file range_start range_end st = (inr reports, st')
      ∧ Forall2 (λ c report,
           born_week report = get_isoweek_from_date (start_date c)
           ∧ Forall2 (λ metric entry,
                function_name entry = snake_case_to_title metric.1
                ∧ call metric.2 c (start_date c) range_end
                    = inr (analysis_result entry))
               metrics (analysis report))
          cohorts reports.
Proof.
  intros Hload Hcalls. split.
  { apply get_metrics_from_file_OK in Hload as (object & _ & -> & _).
    apply StronglySorted_name_lt; [apply getmembers_sorted|apply getmembers_NoDup]. }
  assert (∃ reports, Forall2 (λ c report,
            born_week report = get_isoweek_from_date (start_date c)
            ∧ Forall2 (λ metric entry,
                 map_metric_to_cohort metric c range_start range_end = inr entry)
                metrics (analysis report)) cohorts reports) as [reports Hreports].
  { apply Forall_exists_Forall2, Forall_forall. intros c Hc.
    destruct (Forall_exists_Forall2
      (λ metric entry, map_metric_to_cohort metric c range_start range_end = inr entry)
      metrics) as [entries Hentries].
    { apply Forall_forall. intros metric Hm.
      destruct (Hcalls c metric Hc Hm) as [v Hv].
      exists {| function_name := snake_case_to_title metric.1; analysis_result := v |}.
      by apply map_metric_to_cohort_OK. }
    by exists {| born_week := get_isoweek_from_date (start_date c); analysis := entries |}. }
  exists reports. split.
  - unfold analyze_cohorts. rewrite Hload. simpl. f_equal.
    apply (cohorts_loop_closed cohorts metrics range_start range_end []).
    eapply Forall2_impl; [exact Hreports|]. intros c [week entries] [Hweek Hentries].
    simpl in *. subst week. by rewrite (metrics_loop_closed _ _ _ _ _ entries).
  - eapply Forall2_impl; [exact Hreports|]. intros c report [Hweek Hentries].
    split; [done|]. eapply Forall2_impl; [exact Hentries|].
    intros metric entry. apply map_metric_to_cohort_OK.
Qed.

(** C3 (as amended): when the metric source loads and every metric returns
    on every cohort, [analyze_cohorts] returns one report per cohort, in
    cohort order; the report of a cohort carries as [born_week] the ISO
    week number of the cohort's [start_date] (the number of the week the
    date lies in, counted from the week that holds January 4th) and one
    entry per metric, in the loader's order, which is strictly increasing
    by name; the entry of a metric carries as [function_name] the display
    name of the metric's name, which is the name with every underscore
    turned into a space, every letter that starts the name or follows a
    non-letter in upper case and every other letter in lower case, and as
    [analysis_result] what the metric function returns on (cohort,
    cohort.start_date, end_date). The cohorts' start dates are [datetime]
    values and the metric names are ASCII names. *)
Theorem analyze_cohorts_reports_iso_week_and_title_case
    cohorts metric_file range_start range_end st metrics st' :
  get_metrics_from_file metric_file st = (inr metrics, st') →
  (∀ c metric, c ∈ cohorts → metric ∈ metrics →
     is_ok (call metric.2 c (start_date c) range_end)) →
  (∀ c, c ∈ cohorts → dt_valid (start_date c)) →
  (∀ metric, metric ∈ metrics → Str.is_ascii metric.1 = true) →
  StronglySorted name_lt metrics
  ∧ ∃ reports,
      analyze_cohorts cohorts metric_file range_start range_end st = (inr reports, st')
      ∧ Forall2 (λ c report,
           is_iso_week (start_date c) (born_week report)
           ∧ Forall2 (λ metric entry,
                is_display_name metric.1 (function_name entry)
                ∧ call metric.2 c (start_date c) range_end
                    = inr (analysis_result entry))
               metrics (analysis report))
          cohorts reports.
Proof.
  intros Hload Hcalls Hdates _.
  destruct (analyze_cohorts_closed cohorts metric_file range_start range_end
              st metrics st' Hload Hcalls) as (Hsorted & reports & Hrun & Hreports).
  split; [exact Hsorted|]. exists reports. split; [exact Hrun|].
  eapply Forall2_impl_elem_of; [exact Hreports|].
  intros c report Hc [Hweek Hentries]. split.
  - rewrite Hweek. apply get_isoweek_from_date_is_iso_week.
    by destruct (Hdates c Hc).
  - eapply Forall2_impl; [exact Hentries|]. intros metric entry [Hname Hresult].
    split; [|exact Hresult]. rewrite Hname. apply snake_case_to_title_is_display_name.
Qed.

(** C10: the [start_date] argument of [analyze_cohorts] has no effect on
    what it returns. *)
Theorem analyze_cohorts_ignores_start_date cohorts metric_file s1 s2 range_end st :
  analyze_cohorts cohorts metric_file s1 range_end st
    = analyze_cohorts cohorts metric_file s2 range_end st.
Proof.
  unfold analyze_cohorts.
  destruct (get_metrics_from_file metric_file st) as [[e|metrics] st']; [done|].
  simpl. by rewrite (cohorts_loop_start_date cohorts metrics s1 s2).
Qed.


(** With a metric called [day7x], the entry is named [Day7X]: title case
    upper-cases the letter after the digit, where "each word capitalized"
    gives [Day7x]. *)
Lemma title_case_differs_from_capitalized_words :
  (∃ f, (get_metrics_from_file "retention" retention_imports).1
          = inr [("day7x", MFunction f)])
  ∧ (analyze_cohorts [first_week] "retention" (mk_date 2015 1 5) (mk_date 2015 1 12)
       retention_imports).1
    = inr [ {| born_week := 2;
               analysis := [ {| function_name := "Day7X";
                                analysis_result := PyInt 3 |} ] |} ]
  ∧ words_capitalized "day7x" = "Day7x"
  ∧ "Day7X" ≠ words_capitalized "day7x".
Proof.
  split; [eexists; reflexivity|]. split; [vm_compute; reflexivity|].
  split; [reflexivity|]. vm_compute. discriminate.
Qed.

Lemma analyze_cohorts_reports_iso_week_and_title_case_witness :
  get_metrics_from_file "django_cohort_analysis.metrics" installed_package
    = (inr [("example_metric", MFunction example_metric)], metrics_imported)
  ∧ (∀ c metric, c ∈ [first_week] →
       metric ∈ [("example_metric", MFunction example_metric)] →
       is_ok (call metric.2 c (start_date c) (mk_date 2015 1 12)))
  ∧ (∀ c, c ∈ [first_week] → dt_valid (start_date c))
  ∧ (∀ metric, metric ∈ [("example_metric", MFunction example_metric)] →
       Str.is_ascii metric.1 = true)
  ∧ StronglySorted name_lt [("example_metric", MFunction example_metric)]
  ∧ ∃ reports,
      analyze_cohorts [first_week] "django_cohort_analysis.metrics"
        (mk_date 2015 1 5) (mk_date 2015 1 12) installed_package
        = (inr reports, metrics_imported)
      ∧ Forall2 (λ c report,
           is_iso_week (start_date c) (born_week report)
           ∧ Forall2 (λ metric entry,
                is_display_name metric.1 (function_name entry)
                ∧ call metric.2 c (start_date c) (mk_date 2015 1 12)
                    = inr (analysis_result entry))
               [("example_metric", MFunction example_metric)] (analysis report))
          [first_week] reports.
Proof.
  assert (get_metrics_from_file "django_cohort_analysis.metrics" installed_package
    = (inr [("example_metric", MFunction example_metric)], metrics_imported)) as H1
    by reflexivity.
  assert (∀ c metric, c ∈ [first_week] →
       metric ∈ [("example_metric", MFunction example_metric)] →
       is_ok (call metric.2 c (start_date c) (mk_date 2015 1 12))) as H2.
  { intros c metric ->%list_elem_of_singleton ->%list_elem_of_singleton.
    exists (PyList []). reflexivity. }
  assert (∀ c, c ∈ [first_week] → dt_valid (start_date c)) as H3.
  { intros c ->%list_elem_of_singleton. dt_compute. }
  assert (∀ metric, metric ∈ [("example_metric", MFunction example_metric)] →
       Str.is_ascii metric.1 = true) as H4.
  { intros metric ->%list_elem_of_singleton. reflexivity. }
  split; [exact H1|]. split; [exact H2|]. split; [exact H3|]. split; [exact H4|].
  exact (analyze_cohorts_reports_iso_week_and_title_case [first_week]
           "django_cohort_analysis.metrics"
           (mk_date 2015 1 5) (mk_date 2015 1 12) installed_package _ _ H1 H2 H3 H4).
Defined.

(** ** The example metric *)

Section example_metric_facts.
Implicit Types (c : Cohort) (ws we : datetime).

(** Whatever the fuel, one turn decides: the loop body raises. *)
Lemma example_metric_loop_one_turn fuel c range_end result ws we :
  example_metric_loop (S fuel) c (PyDatetime range_end) result
    (PyDatetime ws) (PyDatetime we)
  = if bool_decide (we < range_end) then
      _ ← dt_add we (timedelta_days 1); inl TypeError
    else inr result.
Proof.
  simpl. case_bool_decide; [|done].
  destruct (dt_add we (timedelta_days 1)); done.
Qed.

(** [example_metric] returns the empty list when no more than a week of
    the range is left after [start_date], and raises otherwise. *)
Lemma example_metric_closed c range_start range_end :
  example_metric c range_start range_end =
    we ← dt_add range_start (timedelta_weeks 1);
    if bool_decide (we < range_end) then
      _ ← dt_add we (timedelta_days 1); inl TypeError
    else inr (PyList []).
Proof.
  unfold example_metric. cbn [py_add].
  destruct (dt_add range_start (timedelta_weeks 1)) as [e|we]; [done|].
  cbn [mbind pyresult_bind]. rewrite example_metric_loop_one_turn.
  case_bool_decide; [|done]. by destruct (dt_add we (timedelta_days 1)).
Qed.
End example_metric_facts.

(** ** The default metric source *)

Lemma analyze_cohorts_for_model_default model range_start range_end st :
  analyze_cohorts_for_model model range_start range_end None st
    = analyze_cohorts_for_model model range_start range_end (Some "cohorts.metrics") st.
Proof. reflexivity. Qed.

(** C9: with the package installed as [setup.py] declares it, the module
    holding [example_metric] is [django_cohort_analysis.metrics]; the
    default identifier is [cohorts.metrics], which does not resolve, so a
    run without identifier raises [NoMetricFileFound] where the same run
    with the built-in module returns a report. *)
Theorem default_metric_file_is_not_the_builtin_module :
  get_file_or_default None = "cohorts.metrics"
  ∧ resolve "cohorts.metrics" installed_package = None
  ∧ resolve "django_cohort_analysis.metrics" installed_package = Some metrics_module
  ∧ metrics_module !! "example_metric" = Some (MFunction example_metric)
  ∧ (analyze_cohorts_for_model signup_model (mk_date 2015 1 5) (mk_date 2015 1 19)
       None installed_package).1
    = inl NoMetricFileFound
  ∧ (analyze_cohorts_for_model signup_model (mk_date 2015 1 5) (mk_date 2015 1 19)
       (Some "django_cohort_analysis.metrics") installed_package).1
    = inr [ {| born_week := 2;
               analysis := [ {| function_name := "Example Metric";
                                analysis_result := PyList [] |} ] |} ].
Proof.
  split; [reflexivity|]. split; [reflexivity|]. split; [reflexivity|].
  split; [reflexivity|]. split; vm_compute; reflexivity.
Qed.


(** * Further properties of the code *)

(** ** Rounding to Mondays *)

Section rounding.
Implicit Types d r : datetime.

Lemma time_of_day_add_days d n :
  (d + timedelta_days n) mod US_PER_DAY = d mod US_PER_DAY.
Proof. unfold timedelta_days. apply Z.mod_add. vm_compute. discriminate. Qed.

Lemma round_date_down_OK d r :
  round_date_down d = inr r ↔ r = d + timedelta_days (- weekday d) ∧ dt_valid r.
Proof.
  unfold round_date_down, dt_sub. rewrite timedelta_days_opp. apply dt_add_OK.
Qed.

Lemma round_date_up_OK d r :
  round_date_up d = inr r ↔ r = d + timedelta_days (weekday d - 7) ∧ dt_valid r.
Proof.
  unfold round_date_up, dt_sub. rewrite timedelta_days_opp.
  replace (- (7 - weekday d)) with (weekday d - 7) by lia. apply dt_add_OK.
Qed.
End rounding.

(** X1: on every representable date [round_date_down] returns, without
    overflow; the result is a Monday, lies at most six days before the
    date, never after it, and keeps the time of day. *)
Theorem round_date_down_returns_monday_of_week d :
  dt_valid d →
  ∃ r, round_date_down d = inr r
    ∧ dt_valid r
    ∧ is_monday r
    ∧ 0 ≤ d - r ≤ timedelta_days 6
    ∧ r mod US_PER_DAY = d mod US_PER_DAY.
Proof.
  intros [Hlo Hhi]. pose proof (weekday_range d) as Hw.
  assert (dt_valid (d + timedelta_days (- weekday d))) as Hv.
  { unfold dt_valid. rewrite toordinal_add_days. unfold weekday, MAXORDINAL in *.
    Z.to_euclidean_division_equations. lia. }
  exists (d + timedelta_days (- weekday d)).
  split; [by apply round_date_down_OK|]. split; [done|]. split; [|split].
  - unfold is_monday. rewrite weekday_add_days.
    replace (weekday d + - weekday d) with 0 by lia. done.
  - unfold timedelta_days, US_PER_DAY, US_PER_SECOND. lia.
  - apply time_of_day_add_days.
Qed.

(** X2: [round_date_down] is idempotent: a date it returned is returned
    unchanged when rounded again. *)
Theorem round_date_down_idempotent d r :
  round_date_down d = inr r → round_date_down r = inr r.
Proof.
  intros [-> Hv]%round_date_down_OK. apply round_date_down_OK.
  split; [|done]. rewrite weekday_add_days.
  replace (weekday d + - weekday d) with 0 by lia.
  change (0 mod 7) with 0. unfold timedelta_days. lia.
Qed.

(** X3: [round_date_up] returns on every representable date from
    0001-01-08 on, and what it returns lies between one and seven days
    before the date, at the same time of day; it is a Monday exactly when
    the date is one, and then it is the Monday one week earlier. *)
Theorem round_date_up_returns_earlier_date d :
  dt_valid d →
  8 ≤ toordinal d →
  ∃ r, round_date_up d = inr r
    ∧ timedelta_days 1 ≤ d - r ≤ timedelta_days 7
    ∧ r mod US_PER_DAY = d mod US_PER_DAY
    ∧ (is_monday r ↔ is_monday d)
    ∧ (is_monday d → r = d - timedelta_weeks 1).
Proof.
  intros [Hlo Hhi] H8. pose proof (weekday_range d) as Hw.
  assert (dt_valid (d + timedelta_days (weekday d - 7))) as Hv.
  { unfold dt_valid. rewrite toordinal_add_days. lia. }
  exists (d + timedelta_days (weekday d - 7)).
  split; [by apply round_date_up_OK|]. split; [|split; [|split]].
  - unfold timedelta_days, US_PER_DAY, US_PER_SECOND. lia.
  - apply time_of_day_add_days.
  - unfold is_monday. rewrite weekday_add_days.
    replace (weekday d + (weekday d - 7)) with (2 * weekday d + (-1) * 7) by lia.
    rewrite Z.mod_add by lia. Z.to_euclidean_division_equations. lia.
  - unfold is_monday. intros ->. unfold timedelta_weeks, timedelta_days. lia.
Qed.


(** ** Born weeks *)

Section born_weeks.
Implicit Types (d r : datetime) (y : Z).

(** An ISO year has 52 or 53 weeks. *)
Lemma isoweek1monday_step y :
  isoweek1monday (y + 1) - isoweek1monday y = 364
  ∨ isoweek1monday (y + 1) - isoweek1monday y = 371.
Proof.
  pose proof (isoweek1monday_spec y) as [Hm0 Hb0].
  pose proof (isoweek1monday_spec (y + 1)) as [Hm1 Hb1].
  pose proof (days_before_year_step y) as Hs.
  rewrite !ymd2ord_jan1 in *. Z.to_euclidean_division_equations. lia.
Qed.

Lemma isoweek1monday_mono y y' : y ≤ y' → isoweek1monday y ≤ isoweek1monday y'.
Proof.
  intros Hle. replace y' with (y + Z.of_nat (Z.to_nat (y' - y))) by lia.
  induction (Z.to_nat (y' - y)) as [|n IH]; [by rewrite Z.add_0_r|].
  replace (y + Z.of_nat (S n)) with (y + Z.of_nat n + 1) by lia.
  pose proof (isoweek1monday_step (y + Z.of_nat n)). lia.
Qed.

(** The ISO year and week of a date are the only ones whose week holds
    the date. *)
Lemma isocalendar_unique d y :
  1 ≤ toordinal d →
  isoweek1monday y ≤ toordinal d < isoweek1monday (y + 1) →
  (isocalendar d).1.1 = y
  ∧ (isocalendar d).1.2 = (toordinal d - isoweek1monday y) / 7 + 1.
Proof.
  intros Ho Hy. pose proof (isocalendar_spec d Ho) as Hspec.
  destruct (isocalendar d) as [[year week] day]. simpl.
  destruct Hspec as (Heq & Hday & Hweek & Hyear).
  assert (year = y) as ->.
  { destruct (Z.lt_trichotomy year y) as [Hlt|[->|Hgt]]; [|done|].
    - pose proof (isoweek1monday_mono (year + 1) y). lia.
    - pose proof (isoweek1monday_mono (y + 1) year). lia. }
  split; [done|]. Z.to_euclidean_division_equations. lia.
Qed.
End born_weeks.

(** X4: rounding a date down to its Monday does not change its ISO week
    number: the [born_week] computed from a rounded start date is the ISO
    week of the date that was rounded. *)
Theorem isoweek_of_rounded_down_date d r :
  dt_valid d →
  round_date_down d = inr r →
  get_isoweek_from_date r = get_isoweek_from_date d.
Proof.
  intros [Ho _] [-> [Hr _]]%round_date_down_OK.
  pose proof (isocalendar_spec d Ho) as Hspec.
  unfold get_isoweek_from_date.
  destruct (isocalendar d) as [[year week] day] eqn:Hd. simpl.
  destruct Hspec as (Heq & Hday & Hweek & Hyear).
  pose proof (isoweek1monday_spec year) as [Hmon _].
  rewrite toordinal_add_days in Hr.
  assert (toordinal (d + timedelta_days (- weekday d))
            = isoweek1monday year + 7 * (week - 1)) as Hord.
  { rewrite toordinal_add_days. unfold weekday in *.
    Z.to_euclidean_division_equations. lia. }
  destruct (isocalendar_unique (d + timedelta_days (- weekday d)) year) as [_ ->].
  - rewrite toordinal_add_days. done.
  - rewrite Hord. lia.
  - rewrite Hord. Z.to_euclidean_division_equations. lia.
Qed.

(** X5: the ISO week number of a representable date lies between 1 and
    53, and one week later the number is one more, or back to 1 when an
    ISO year ends in between: the cohorts of consecutive weeks carry
    consecutive born weeks up to that wrap. *)
Theorem isoweek_one_week_later d :
  dt_valid d →
  1 ≤ get_isoweek_from_date d ≤ 53
  ∧ (get_isoweek_from_date (d + timedelta_weeks 1) = get_isoweek_from_date d + 1
     ∨ get_isoweek_from_date (d + timedelta_weeks 1) = 1).
Proof.
  intros [Ho _]. pose proof (isocalendar_spec d Ho) as Hspec.
  unfold get_isoweek_from_date.
  destruct (isocalendar d) as [[year week] day] eqn:Hd. simpl.
  destruct Hspec as (Heq & Hday & Hweek & Hyear). split; [done|].
  assert (toordinal (d + timedelta_weeks 1) = toordinal d + 7) as Hord.
  { unfold timedelta_weeks. apply toordinal_add_days. }
  destruct (decide (toordinal d + 7 < isoweek1monday (year + 1))) as [Hin|Hout].
  - left. destruct (isocalendar_unique (d + timedelta_weeks 1) year) as [_ ->].
    + lia.
    + lia.
    + rewrite Hord. Z.to_euclidean_division_equations. lia.
  - right. pose proof (isoweek1monday_step (year + 1)) as Hstep.
    destruct (isocalendar_unique (d + timedelta_weeks 1) (year + 1)) as [_ ->].
    + lia.
    + lia.
    + rewrite Hord. Z.to_euclidean_division_equations. lia.
Qed.


(** ** The shape of the cohort list *)

Section cohort_list.
Implicit Types (model : Model) (qs all : QuerySet) (cs acc : list Cohort)
  (c : Cohort) (r : ModelInstance) (ws we s e : datetime).

Lemma timedelta_weeks_of_nat (k : nat) :
  timedelta_weeks (Z.of_nat k) = Z.of_nat k * timedelta_weeks 1.
Proof. unfold timedelta_weeks, timedelta_days. lia. Qed.

(** Whatever the loop returns is a run of weekly windows, all of them
    ending before [e], the next one not. *)
Lemma cohort_loop_OK_closed fuel : ∀ all e acc ws we cs,
  (cohort_loop_fuel we e ≤ fuel)%nat →
  cohort_loop fuel all e acc ws we = inr cs →
  ∃ n : nat,
    cs = acc ++ weekly_cohorts all ws we n
    ∧ (∀ k : nat, (k < n)%nat → we + timedelta_weeks (Z.of_nat k) < e)
    ∧ e ≤ we + timedelta_weeks (Z.of_nat n).
Proof.
  induction fuel as [|fuel IH]; intros all e acc ws we cs Hfuel.
  - intros [= <-]. exists 0%nat.
    change (weekly_cohorts all ws we 0) with (@nil Cohort).
    rewrite (right_id_L [] (++)). split; [done|]. split; [lia|].
    unfold cohort_loop_fuel in Hfuel. change (timedelta_weeks (Z.of_nat 0)) with 0.
    unfold timedelta_weeks, timedelta_days, US_PER_DAY, US_PER_SECOND in *.
    Z.to_euclidean_division_equations. lia.
  - rewrite cohort_loop_S. case_bool_decide as Hcond.
    + destruct (dt_add ws _) as [e1|ws'] eqn:H1; simpl; [done|].
      destruct (dt_add we _) as [e2|we'] eqn:H2; simpl; [done|].
      apply dt_add_OK in H1 as [-> _]. apply dt_add_OK in H2 as [-> _].
      intros (n & -> & Hlt & Hge)%IH.
      * exists (S n). rewrite weekly_cohorts_S, <- (assoc_L (++)).
        split; [done|]. split.
        -- intros [|k] Hk.
           ++ change (timedelta_weeks (Z.of_nat 0)) with 0. lia.
           ++ specialize (Hlt k). rewrite timedelta_weeks_S. lia.
        -- rewrite timedelta_weeks_S. lia.
      * unfold cohort_loop_fuel in *.
        unfold timedelta_weeks, timedelta_days, US_PER_DAY, US_PER_SECOND in *.
        Z.to_euclidean_division_equations. lia.
    + intros [= <-]. exists 0%nat.
      change (weekly_cohorts all ws we 0) with (@nil Cohort).
      rewrite (right_id_L [] (++)). split; [done|]. split; [lia|].
      change (timedelta_weeks (Z.of_nat 0)) with 0. lia.
Qed.

Lemma get_cohorts_from_model_OK_closed model s e cs :
  get_cohorts_from_model model s e = inr cs →
  ∃ qs (n : nat),
    objects_all model = qs
    ∧ cs = weekly_cohorts qs s (s + timedelta_days 6) n
    ∧ (∀ k : nat, (k < n)%nat →
         s + timedelta_days 6 + timedelta_weeks (Z.of_nat k) < e)
    ∧ e ≤ s + timedelta_days 6 + timedelta_weeks (Z.of_nat n).
Proof.
  destruct (decide (dt_valid (s + timedelta_days 6))) as [Hv|Hv]; last first.
  { by rewrite get_cohorts_from_model_overflow. }
  rewrite (get_cohorts_from_model_loop _ (objects_all model)) by done.
  intros (n & -> & Hlt & Hge)%cohort_loop_OK_closed; [|done].
  by exists (objects_all model), n.
Qed.

Lemma weekly_cohorts_lookup all ws we n (k : nat) c :
  weekly_cohorts all ws we n !! k = Some c →
  (k < n)%nat
  ∧ c = Build_Cohort
          (extract_instances_in_date_range all
             (ws + timedelta_weeks (Z.of_nat k)) (we + timedelta_weeks (Z.of_nat k)))
          (ws + timedelta_weeks (Z.of_nat k)) (we + timedelta_weeks (Z.of_nat k)).
Proof.
  unfold weekly_cohorts. rewrite list_lookup_fmap.
  destruct (seq 0 n !! k) as [j|] eqn:Hj; [|done].
  apply lookup_seq in Hj as [-> Hk]. simpl. by intros [= <-].
Qed.

Lemma weekly_cohorts_elem_of all ws we n c r :
  c ∈ weekly_cohorts all ws we n → r ∈ queryset c →
  ∃ k : nat, (k < n)%nat ∧ r ∈ all
    ∧ ws + timedelta_weeks (Z.of_nat k) ≤ date_created r
        ≤ we + timedelta_weeks (Z.of_nat k).
Proof.
  intros [k Hk]%list_elem_of_lookup_1 Hr.
  apply weekly_cohorts_lookup in Hk as [Hkn ->]. exists k. split; [done|].
  simpl in Hr. unfold extract_instances_in_date_range, filter_date_created_range in Hr.
  apply list_elem_of_filter in Hr. tauto.
Qed.
End cohort_list.

(** X6: what [get_cohorts_from_model] returns is the list, in order, of
    the weekly windows that start at [start_date], [start_date] plus one
    week, and so on, each six days wide and holding the records of its
    closed interval; every window ends strictly before [end_date], and the
    window after the last one would not. *)
Theorem get_cohorts_from_model_weekly_windows model range_start range_end cs :
  get_cohorts_from_model model range_start range_end = inr cs →
  ∃ qs, objects_all model = qs
  ∧ (∀ (k : nat) c, cs !! k = Some c →
       start_date c = range_start + timedelta_weeks (Z.of_nat k)
       ∧ end_date c = start_date c + timedelta_days 6
       ∧ end_date c < range_end
       ∧ queryset c = filter_date_created_range qs (start_date c) (end_date c))
  ∧ range_end ≤ range_start + timedelta_days 6
                 + timedelta_weeks (Z.of_nat (length cs)).
Proof.
  intros (qs & n & Hqs & -> & Hlt & Hge)%get_cohorts_from_model_OK_closed.
  exists qs. split; [done|]. rewrite length_weekly_cohorts. split; [|done].
  intros k c [Hk ->]%weekly_cohorts_lookup. simpl.
  split; [done|]. split; [lia|]. split; [by apply Hlt|]. done.
Qed.

(** X7: the number of cohorts [get_cohorts_from_model] returns is the
    number of weeks, a started week counting as one, from six days after
    [start_date] to [end_date], and zero when [end_date] comes no later. *)
Theorem get_cohorts_from_model_count model range_start range_end cs :
  get_cohorts_from_model model range_start range_end = inr cs →
  Z.of_nat (length cs) =
    Z.max 0 ((range_end - (range_start + timedelta_days 6) + timedelta_weeks 1 - 1)
             / timedelta_weeks 1).
Proof.
  intros (qs & n & Hqs & -> & Hlt & Hge)%get_cohorts_from_model_OK_closed.
  rewrite length_weekly_cohorts. rewrite timedelta_weeks_of_nat in Hge.
  destruct n as [|n].
  - unfold timedelta_weeks, timedelta_days, US_PER_DAY, US_PER_SECOND in *.
    Z.to_euclidean_division_equations. lia.
  - specialize (Hlt n (Nat.lt_succ_diag_r n)). rewrite timedelta_weeks_of_nat in Hlt.
    unfold timedelta_weeks, timedelta_days, US_PER_DAY, US_PER_SECOND in *.
    Z.to_euclidean_division_equations. lia.
Qed.


(** X8: no record is in two cohorts of one [get_cohorts_from_model]
    result: the weekly windows do not overlap. *)
Theorem cohorts_do_not_share_records model range_start range_end cs
    (i j : nat) ci cj r :
  get_cohorts_from_model model range_start range_end = inr cs →
  cs !! i = Some ci → cs !! j = Some cj →
  r ∈ queryset ci → r ∈ queryset cj →
  i = j.
Proof.
  intros (qs & n & Hqs & -> & _)%get_cohorts_from_model_OK_closed.
  intros [_ ->]%weekly_cohorts_lookup [_ ->]%weekly_cohorts_lookup. simpl.
  unfold extract_instances_in_date_range, filter_date_created_range.
  intros [Hi _]%list_elem_of_filter [Hj _]%list_elem_of_filter.
  rewrite !timedelta_weeks_of_nat in Hi, Hj.
  unfold timedelta_weeks, timedelta_days, US_PER_DAY, US_PER_SECOND in *. lia.
Qed.

(** X9: a record created a whole number [j] of days after [start_date],
    at the same time of day, with [j] below seven times the number of
    cohorts, is in the cohort number [j / 7]: data kept by the day is
    covered week after week without loss. *)
Theorem day_granular_records_are_covered model qs range_start range_end cs r j :
  get_cohorts_from_model model range_start range_end = inr cs →
  objects_all model = qs →
  r ∈ qs →
  0 ≤ j < 7 * Z.of_nat (length cs) →
  date_created r = range_start + timedelta_days j →
  ∃ c, cs !! Z.to_nat (j / 7) = Some c ∧ r ∈ queryset c.
Proof.
  intros (qs' & n & Hqs' & -> & _)%get_cohorts_from_model_OK_closed Hqs Hr Hj Hd.
  rewrite Hqs in Hqs'. subst qs'.
  rewrite length_weekly_cohorts in Hj.
  assert (Z.to_nat (j / 7) < n)%nat as Hk.
  { apply Nat2Z.inj_lt. rewrite Z2Nat.id; Z.to_euclidean_division_equations; lia. }
  eexists. split.
  - unfold weekly_cohorts. rewrite list_lookup_fmap, lookup_seq_lt by done.
    reflexivity.
  - simpl. unfold extract_instances_in_date_range, filter_date_created_range.
    apply list_elem_of_filter. split; [|done].
    rewrite Hd, timedelta_weeks_of_nat, Z2Nat.id
      by (Z.to_euclidean_division_equations; lia).
    unfold timedelta_weeks, timedelta_days, US_PER_DAY, US_PER_SECOND.
    Z.to_euclidean_division_equations. lia.
Qed.

(** X10: a record created more than six days after the start of a weekly
    window and before the start of the next one is in no cohort: with
    timestamps, what is created on the seventh day after the window's time
    of day is left out. *)
Theorem seventh_day_records_are_in_no_cohort model range_start range_end cs
    (k : nat) c r :
  get_cohorts_from_model model range_start range_end = inr cs →
  range_start + timedelta_weeks (Z.of_nat k) + timedelta_days 6 < date_created r →
  date_created r < range_start + timedelta_weeks (Z.of_nat k) + timedelta_weeks 1 →
  c ∈ cs →
  r ∉ queryset c.
Proof.
  intros (qs & n & Hqs & -> & _)%get_cohorts_from_model_OK_closed Hlo Hhi Hc Hr.
  destruct (weekly_cohorts_elem_of _ _ _ _ _ _ Hc Hr) as (i & _ & _ & Hi).
  rewrite !timedelta_weeks_of_nat in *.
  unfold timedelta_weeks, timedelta_days, US_PER_DAY, US_PER_SECOND in *. lia.
Qed.


(** ** What loading and analysis do besides *)

Section analyzer_runs.
Implicit Types (c : Cohort) (cohorts cs : list Cohort)
  (metrics ms : list (string * member)) (d : CohortReport)
  (acc reports : list CohortReport).

Lemma metrics_loop_returns ms : ∀ c s e d,
  (∀ metric, metric ∈ ms → is_ok (call metric.2 c (start_date c) e)) →
  ∃ report, metrics_loop ms c s e d = inr report.
Proof.
  induction ms as [|metric ms IH]; intros c s e d Hok; simpl; [by eauto|].
  destruct (Hok metric) as [v Hv]; [by left|].
  unfold map_metric_to_cohort. rewrite Hv. simpl. apply IH.
  intros metric' Hin. apply Hok. by right.
Qed.

Lemma metrics_loop_raises ms1 : ∀ metric ms2 c s e d err,
  (∀ metric', metric' ∈ ms1 → is_ok (call metric'.2 c (start_date c) e)) →
  call metric.2 c (start_date c) e = inl err →
  metrics_loop (ms1 ++ metric :: ms2) c s e d = inl err.
Proof.
  induction ms1 as [|metric' ms1 IH]; intros metric ms2 c s e d err Hok Herr; simpl.
  - unfold map_metric_to_cohort. by rewrite Herr.
  - destruct (Hok metric') as [v Hv]; [by left|].
    unfold map_metric_to_cohort at 1. rewrite Hv. simpl. apply IH; [|done].
    intros m Hin. apply Hok. by right.
Qed.

Lemma cohorts_loop_raises cs1 : ∀ c cs2 ms s e acc err,
  (∀ c' metric, c' ∈ cs1 → metric ∈ ms →
     is_ok (call metric.2 c' (start_date c') e)) →
  metrics_loop ms c s e (create_default_dict_for_cohort c) = inl err →
  cohorts_loop (cs1 ++ c :: cs2) ms s e acc = inl err.
Proof.
  induction cs1 as [|c' cs1 IH]; intros c cs2 ms s e acc err Hok Herr; simpl.
  - by rewrite Herr.
  - destruct (metrics_loop_returns ms c' s e (create_default_dict_for_cohort c'))
      as [report ->]; [intros m Hm; apply Hok; [by left|done]|].
    simpl. apply IH; [|done]. intros c'' m Hc Hm. apply Hok; [by right|done].
Qed.

(** The reports a run appends do not depend on the reports it starts
    from. *)
Lemma cohorts_loop_acc cs : ∀ ms s e acc,
  cohorts_loop cs ms s e acc
    = (reports ← cohorts_loop cs ms s e []; inr (acc ++ reports)).
Proof.
  induction cs as [|c cs IH]; intros ms s e acc; simpl.
  - by rewrite (right_id_L [] (++)).
  - destruct (metrics_loop ms c s e _) as [err|report]; simpl; [done|].
    rewrite (IH _ _ _ (acc ++ [report])), (IH _ _ _ [report]).
    destruct (cohorts_loop cs ms s e []) as [err|reports]; simpl; [done|].
    by rewrite <- (assoc_L (++)).
Qed.

Lemma cohorts_loop_app cs1 cs2 ms s e :
  cohorts_loop (cs1 ++ cs2) ms s e []
    = (r1 ← cohorts_loop cs1 ms s e [];
       r2 ← cohorts_loop cs2 ms s e [];
       inr (r1 ++ r2)).
Proof.
  induction cs1 as [|c cs1 IH]; simpl.
  - by destruct (cohorts_loop cs2 ms s e []).
  - destruct (metrics_loop ms c s e _) as [err|report]; simpl; [done|].
    rewrite (cohorts_loop_acc (cs1 ++ cs2)), (cohorts_loop_acc cs1), IH.
    destruct (cohorts_loop cs1 ms s e []) as [err|r1]; simpl; [done|].
    destruct (cohorts_loop cs2 ms s e []) as [err|r2]; simpl; done.
Qed.
End analyzer_runs.

(** X12: with no cohort at all [analyze_cohorts] still loads the metrics:
    it returns the empty list exactly when the identifier resolves to a
    module with at least one function, raises [NoMetricFileFound] exactly
    when the import of the identifier raises [ImportError], and never
    returns anything but the empty list. *)
Theorem analyze_cohorts_without_cohorts metric_file range_start range_end st :
  ((analyze_cohorts [] metric_file range_start range_end st).1 = inr []
     ↔ ∃ object, resolve metric_file st = Some object ∧ has_function_member object)
  ∧ ((analyze_cohorts [] metric_file range_start range_end st).1 = inl NoMetricFileFound
     ↔ (import_module metric_file st).1 = inl ImportError)
  ∧ (analyze_cohorts [] metric_file range_start range_end st).1
    = (_ ← (get_metrics_from_file metric_file st).1; inr [])
  ∧ ∀ reports,
      (analyze_cohorts [] metric_file range_start range_end st).1 = inr reports →
      reports = [].
Proof.
  assert (∀ object, resolve metric_file st = Some object
                    ↔ (import_module metric_file st).1 = inr object) as Hres
    by (intros; apply resolve_Some).
  setoid_rewrite Hres. clear Hres.
  unfold analyze_cohorts.
  pose proof (get_metrics_from_file_result metric_file st) as Hr.
  pose proof (import_module_Err metric_file st) as Herr.
  destruct (get_metrics_from_file metric_file st) as [r st']. simpl in *. subst r.
  destruct (import_module metric_file st).1 as [e|object]; simpl.
  - destruct (Herr e eq_refl) as [->|[->|[->|[msg ->]]]]; try case_decide;
      naive_solver.
  - destruct (getmembers object isfunction) as [|metric metrics] eqn:Hg; simpl;
      [assert (¬ has_function_member object)
         by (by apply getmembers_isfunction_nil)
      |assert (has_function_member object)
         by (by eapply getmembers_isfunction_cons)];
      naive_solver.
Qed.

(** X13: [analyze_cohorts] stops at the first metric call that raises,
    cohorts taken in order and, for each cohort, metrics in order: it
    raises that exception and returns no report, not even those of the
    cohorts already analysed. *)
Theorem analyze_cohorts_raises_first_failure
    cs1 c cs2 ms1 metric ms2 metric_file range_start range_end st st' err :
  get_metrics_from_file metric_file st = (inr (ms1 ++ metric :: ms2), st') →
  (∀ c' metric', c' ∈ cs1 → metric' ∈ ms1 ++ metric :: ms2 →
     is_ok (call metric'.2 c' (start_date c') range_end)) →
  (∀ metric', metric' ∈ ms1 → is_ok (call metric'.2 c (start_date c) range_end)) →
  call metric.2 c (start_date c) range_end = inl err →
  analyze_cohorts (cs1 ++ c :: cs2) metric_file range_start range_end st
    = (inl err, st').
Proof.
  intros Hload Hbefore Hms1 Herr. unfold analyze_cohorts. rewrite Hload. simpl.
  f_equal. apply cohorts_loop_raises; [done|]. by apply metrics_loop_raises.
Qed.

(** X14: analysing two lists of cohorts one after the other is analysing
    their concatenation: the reports are concatenated, and an exception of
    the first list goes before one of the second. *)
Theorem analyze_cohorts_app cs1 cs2 metric_file range_start range_end st :
  (analyze_cohorts (cs1 ++ cs2) metric_file range_start range_end st).1
    = (r1 ← (analyze_cohorts cs1 metric_file range_start range_end st).1;
       r2 ← (analyze_cohorts cs2 metric_file range_start range_end st).1;
       inr (r1 ++ r2)).
Proof.
  unfold analyze_cohorts.
  destruct (get_metrics_from_file metric_file st) as [[err|metrics] st']; [done|].
  simpl. apply cohorts_loop_app.
Qed.


(** X15: for every record source, a representable [start_date] with a
    representable first window, and an [end_date] at least one week before
    the end of year 9999, [get_cohorts_from_model] returns a list: no
    window bound it computes overflows. *)
Theorem get_cohorts_from_model_returns model qs range_start range_end :
  objects_all model = qs →
  dt_valid range_start →
  dt_valid (range_start + timedelta_days 6) →
  dt_valid (range_end + timedelta_weeks 1) →
  ∃ cs, get_cohorts_from_model model range_start range_end = inr cs.
Proof.
  intros Hqs Hs H6 He.
  set (n := Z.to_nat (Z.max 0
    ((range_end - (range_start + timedelta_days 6) + timedelta_weeks 1 - 1)
       / timedelta_weeks 1))).
  exists (weekly_cohorts qs range_start (range_start + timedelta_days 6) n).
  assert (Z.of_nat n = Z.max 0
    ((range_end - (range_start + timedelta_days 6) + timedelta_weeks 1 - 1)
       / timedelta_weeks 1)) as Hn by (subst n; lia).
  clearbody n.
  apply get_cohorts_from_model_closed; try done.
  - intros k Hk. rewrite timedelta_weeks_of_nat.
    unfold timedelta_weeks, timedelta_days, US_PER_DAY, US_PER_SECOND in *.
    Z.to_euclidean_division_equations. lia.
  - rewrite timedelta_weeks_of_nat.
    unfold timedelta_weeks, timedelta_days, US_PER_DAY, US_PER_SECOND in *.
    Z.to_euclidean_division_equations. lia.
  - destruct (decide (range_start + timedelta_days 6 < range_end)) as [Hlt|Hge].
    + eapply dt_valid_between; [exact Hs|exact He|].
      rewrite timedelta_weeks_of_nat.
      unfold timedelta_weeks, timedelta_days, US_PER_DAY, US_PER_SECOND in *.
      Z.to_euclidean_division_equations. lia.
    + replace (Z.of_nat n) with 0.
      * change (timedelta_weeks 0) with 0. by rewrite Z.add_0_r.
      * unfold timedelta_weeks, timedelta_days, US_PER_DAY, US_PER_SECOND in *.
        Z.to_euclidean_division_equations. lia.
Qed.

(** ** The example metric and the whole pipeline *)

(** X16: [example_metric] never returns a count. It returns the empty
    list when [end_date] is at most one week after [start_date], and
    raises [TypeError] when [end_date] is later: the first turn of its loop
    adds a date to a date. *)
Theorem example_metric_returns_nothing_or_raises c range_start range_end :
  dt_valid range_start →
  dt_valid (range_start + timedelta_days 8) →
  (range_end ≤ range_start + timedelta_weeks 1 →
     example_metric c range_start range_end = inr (PyList []))
  ∧ (range_start + timedelta_weeks 1 < range_end →
     example_metric c range_start range_end = inl TypeError)
  ∧ ∀ v, example_metric c range_start range_end = inr v → v = PyList [].
Proof.
  intros Hs H8. rewrite example_metric_closed.
  assert (dt_valid (range_start + timedelta_weeks 1)) as H7.
  { eapply dt_valid_between; [exact Hs|exact H8|].
    unfold timedelta_weeks, timedelta_days, US_PER_DAY, US_PER_SECOND. lia. }
  rewrite (dt_add_valid _ _ H7). simpl.
  assert (dt_valid (range_start + timedelta_weeks 1 + timedelta_days 1)) as H8'.
  { replace (range_start + timedelta_weeks 1 + timedelta_days 1)
      with (range_start + timedelta_days 8); [done|].
    unfold timedelta_weeks, timedelta_days. lia. }
  rewrite (dt_add_valid _ _ H8'). simpl.
  case_bool_decide as Hcond.
  - split; [lia|]. split; [done|]. intros v [=].
  - split; [done|]. split; [lia|]. by intros v [= <-].
Qed.

Section pipeline.
Implicit Types (model : Model) (qs : QuerySet) (cs : list Cohort)
  (ms : list (string * member)).

Lemma cohorts_loop_returns cs : ∀ ms s e acc,
  (∀ c metric, c ∈ cs → metric ∈ ms →
     is_ok (call metric.2 c (start_date c) e)) →
  ∃ reports, cohorts_loop cs ms s e acc = inr (acc ++ reports)
    ∧ length reports = length cs.
Proof.
  induction cs as [|c cs IH]; intros ms s e acc Hok; simpl.
  - exists []. by rewrite (right_id_L [] (++)).
  - destruct (metrics_loop_returns ms c s e (create_default_dict_for_cohort c))
      as [report ->]; [intros m Hm; apply Hok; [by left|done]|].
    simpl.
    destruct (IH ms s e (acc ++ [report])) as (reports & -> & Hlen).
    { intros c' m Hc Hm. apply Hok; [by right|done]. }
    exists (report :: reports). rewrite <- (assoc_L (++)). simpl. by rewrite Hlen.
Qed.

(** Between two Mondays the rounded range is the given one, cut by its
    last week. *)
Lemma stretch_between_mondays s W :
  is_monday s → dt_valid s → 1 ≤ W → dt_valid (s + timedelta_days (7 * W)) →
  stretch_to_rounded_date_range s (s + timedelta_days (7 * W))
    = inr (s, s + timedelta_days (7 * (W - 1))).
Proof.
  intros Hmon Hs HW He. unfold stretch_to_rounded_date_range.
  assert (round_date_down s = inr s) as ->.
  { apply round_date_down_OK. rewrite Hmon. split; [|done].
    unfold timedelta_days. lia. }
  simpl.
  assert (round_date_up (s + timedelta_days (7 * W))
            = inr (s + timedelta_days (7 * (W - 1)))) as ->; [|done].
  apply round_date_up_OK.
  assert (weekday (s + timedelta_days (7 * W)) = 0) as ->.
  { rewrite weekday_add_days, Hmon. Z.to_euclidean_division_equations. lia. }
  split.
  - unfold timedelta_days. lia.
  - eapply dt_valid_between; [exact Hs|exact He|].
    unfold timedelta_days, US_PER_DAY, US_PER_SECOND. lia.
Qed.

Lemma get_cohorts_between_mondays model qs s W :
  objects_all model = qs →
  dt_valid s → 1 ≤ W → dt_valid (s + timedelta_days (7 * W)) →
  get_cohorts_from_model model s (s + timedelta_days (7 * (W - 1)))
    = inr (weekly_cohorts qs s (s + timedelta_days 6) (Z.to_nat (W - 1))).
Proof.
  intros Hqs Hs HW He. apply get_cohorts_from_model_closed; try done.
  - intros k Hk. rewrite timedelta_weeks_of_nat.
    unfold timedelta_weeks, timedelta_days, US_PER_DAY, US_PER_SECOND. lia.
  - rewrite timedelta_weeks_of_nat, Z2Nat.id by lia.
    unfold timedelta_weeks, timedelta_days, US_PER_DAY, US_PER_SECOND. lia.
  - eapply dt_valid_between; [exact Hs|exact He|].
    rewrite timedelta_weeks_of_nat, Z2Nat.id by lia.
    unfold timedelta_weeks, timedelta_days, US_PER_DAY, US_PER_SECOND. lia.
Qed.
End pipeline.


(** X18: from a Monday to the Monday [W] weeks later, with a metric
    source that loads and metrics that return on the cohorts,
    [analyze_cohorts_for_model] returns [W - 1] reports: the end is rounded
    to the Monday before it, and the remaining [W - 1] weeks give one
    cohort each. *)
Theorem analyze_cohorts_for_model_between_mondays
    model qs range_start W metric_file st metrics st' :
  objects_all model = qs →
  is_monday range_start →
  dt_valid range_start →
  1 ≤ W →
  dt_valid (range_start + timedelta_days (7 * W)) →
  get_metrics_from_file metric_file st = (inr metrics, st') →
  (∀ c metric,
     c ∈ weekly_cohorts qs range_start (range_start + timedelta_days 6)
           (Z.to_nat (W - 1)) →
     metric ∈ metrics →
     is_ok (call metric.2 c (start_date c)
              (range_start + timedelta_days (7 * (W - 1))))) →
  ∃ reports,
    analyze_cohorts_for_model model range_start
      (range_start + timedelta_days (7 * W)) (Some metric_file) st
      = (inr reports, st')
    ∧ Z.of_nat (length reports) = W - 1.
Proof.
  intros Hqs Hmon Hs HW He Hload Hok. unfold analyze_cohorts_for_model.
  rewrite stretch_between_mondays by done.
  rewrite (get_cohorts_between_mondays model qs) by done.
  unfold analyze_cohorts. simpl. rewrite Hload. simpl.
  destruct (cohorts_loop_returns _ metrics range_start
              (range_start + timedelta_days (7 * (W - 1))) [] Hok)
    as (reports & -> & Hlen).
  exists reports. split; [done|]. rewrite Hlen, length_weekly_cohorts. lia.
Qed.

(** X19: with the module [metrics.py] as metric source and a range from a
    Monday to the Monday [W] weeks later,
    [analyze_cohorts_for_model] returns one report with an empty result
    when [W] is 2 and raises [TypeError] when [W] is 3 or more:
    [example_metric] raises as soon as more than one week is left after a
    cohort's start. *)
Theorem builtin_metrics_between_mondays model qs range_start W metric_file st :
  objects_all model = qs →
  is_monday range_start →
  dt_valid range_start →
  2 ≤ W →
  dt_valid (range_start + timedelta_days (7 * W)) →
  resolve metric_file st = Some metrics_module →
  (W = 2 →
     (analyze_cohorts_for_model model range_start
        (range_start + timedelta_days (7 * W)) (Some metric_file) st).1
     = inr [ {| born_week := get_isoweek_from_date range_start;
                analysis := [ {| function_name := "Example Metric";
                                 analysis_result := PyList [] |} ] |} ])
  ∧ (3 ≤ W →
     (analyze_cohorts_for_model model range_start
        (range_start + timedelta_days (7 * W)) (Some metric_file) st).1
     = inl TypeError).
Proof.
  intros Hqs Hmon Hs HW He Hres. unfold analyze_cohorts_for_model.
  rewrite stretch_between_mondays; [|done|done|lia|done].
  rewrite (get_cohorts_between_mondays model qs); [|done|done|lia|done].
  unfold analyze_cohorts. simpl.
  pose proof (get_metrics_from_file_resolved metric_file st _ Hres) as Hr.
  change (getmembers metrics_module isfunction)
    with [("example_metric", MFunction example_metric)] in Hr.
  destruct (get_metrics_from_file metric_file st) as [r st']. simpl in *. subst r.
  simpl.
  assert (∃ n, Z.to_nat (W - 1) = S n ∧ Z.of_nat n = W - 2) as (n & -> & Hn).
  { exists (Z.to_nat (W - 2)). lia. }
  rewrite weekly_cohorts_S. cbn [cohorts_loop metrics_loop].
  unfold map_metric_to_cohort. cbn [fst snd call start_date].
  rewrite example_metric_closed.
  assert (dt_valid (range_start + timedelta_weeks 1)) as H7.
  { eapply dt_valid_between; [exact Hs|exact He|].
    unfold timedelta_weeks, timedelta_days, US_PER_DAY, US_PER_SECOND. lia. }
  rewrite (dt_add_valid _ _ H7). cbn [mbind pyresult_bind].
  split.
  - intros ->. assert (n = 0%nat) as -> by lia.
    rewrite bool_decide_eq_false_2; [reflexivity|].
    unfold timedelta_weeks, timedelta_days, US_PER_DAY, US_PER_SECOND. lia.
  - intros H3. rewrite bool_decide_eq_true_2; last first.
    { unfold timedelta_weeks, timedelta_days, US_PER_DAY, US_PER_SECOND. lia. }
    rewrite dt_add_valid; [reflexivity|].
    eapply dt_valid_between; [exact Hs|exact He|].
    unfold timedelta_weeks, timedelta_days, US_PER_DAY, US_PER_SECOND. lia.
Qed.


(** ** Display names, again *)

Section title_case.
Implicit Types (c : ascii) (s : string) (b : bool).

Lemma toupper_is_upper c :
  Str.islower c = true →
  Str.islower (Str.toupper c) = false ∧ Str.isupper (Str.toupper c) = true.
Proof. destruct c as [[] [] [] [] [] [] [] []]; vm_compute; done. Qed.

Lemma tolower_is_lower c :
  Str.isupper c = true → Str.islower (Str.tolower c) = true.
Proof. destruct c as [[] [] [] [] [] [] [] []]; vm_compute; done. Qed.

Lemma cased_is_no_underscore c :
  Ascii.eqb c "_" = false →
  Ascii.eqb (Str.toupper c) "_" = false ∧ Ascii.eqb (Str.tolower c) "_" = false.
Proof. destruct c as [[] [] [] [] [] [] [] []]; vm_compute; done. Qed.

Lemma cased_is_ascii c :
  (nat_of_ascii c <? 128)%nat = true →
  (nat_of_ascii (Str.toupper c) <? 128)%nat = true
  ∧ (nat_of_ascii (Str.tolower c) <? 128)%nat = true.
Proof. destruct c as [[] [] [] [] [] [] [] []]; vm_compute; done. Qed.

Lemma is_ascii_title_from s : ∀ b,
  Str.is_ascii s = true → Str.is_ascii (Str.title_from b s) = true.
Proof.
  induction s as [|c s IH]; intros b; [done|].
  cbn [Str.is_ascii Str.title_from]. intros [Hc Hs]%andb_true_iff.
  destruct (cased_is_ascii c Hc) as [Hu Hl].
  destruct (Str.islower c); [|destruct (Str.isupper c)];
    destruct b; cbn [Str.is_ascii]; rewrite ?Hu, ?Hl, ?Hc, IH; done.
Qed.

Lemma is_ascii_replace s :
  Str.is_ascii s = true → Str.is_ascii (Str.replace "_" " " s) = true.
Proof.
  induction s as [|c s IH]; [done|].
  cbn [Str.is_ascii Str.replace]. intros [Hc Hs]%andb_true_iff.
  rewrite (IH Hs). by destruct (Ascii.eqb c "_"); rewrite ?Hc.
Qed.

Lemma title_from_idempotent s : ∀ b,
  Str.title_from b (Str.title_from b s) = Str.title_from b s.
Proof.
  induction s as [|c s IH]; intros b; [done|].
  cbn [Str.title_from].
  destruct (Str.islower c) eqn:Hlow; [|destruct (Str.isupper c) eqn:Hup].
  - destruct b; cbn [Str.title_from].
    + by rewrite Hlow, IH.
    + destruct (toupper_is_upper c Hlow) as [-> ->]. by rewrite IH.
  - destruct b; cbn [Str.title_from].
    + by rewrite (tolower_is_lower c Hup), IH.
    + by rewrite Hlow, Hup, IH.
  - cbn [Str.title_from]. by rewrite Hlow, Hup, IH.
Qed.

Lemma title_from_length s : ∀ b, String.length (Str.title_from b s) = String.length s.
Proof.
  induction s as [|c s IH]; intros b; [done|]. simpl.
  destruct (Str.islower c); [|destruct (Str.isupper c)]; simpl; by rewrite IH.
Qed.

Lemma replace_length s : String.length (Str.replace "_" " " s) = String.length s.
Proof. induction s as [|c s IH]; simpl; by rewrite ?IH. Qed.

(** After [replace] and [title] no underscore is left to replace. *)
Lemma replace_title_replace s : ∀ b,
  Str.replace "_" " " (Str.title_from b (Str.replace "_" " " s))
    = Str.title_from b (Str.replace "_" " " s).
Proof.
  induction s as [|c s IH]; intros b; [done|].
  cbn [Str.replace].
  set (c' := if Ascii.eqb c "_" then " "%char else c).
  assert (Ascii.eqb c' "_" = false) as Hc'.
  { subst c'. by destruct (Ascii.eqb c "_") eqn:Hc. }
  destruct (cased_is_no_underscore c' Hc') as [Hu Hl]. clearbody c'.
  cbn [Str.title_from].
  destruct (Str.islower c'); [|destruct (Str.isupper c')];
    destruct b; cbn [Str.replace]; rewrite ?Hu, ?Hl, ?Hc', IH; done.
Qed.
End title_case.

(** X20: on an ASCII name [snake_case_to_title] returns an ASCII name of
    the same length, leaves no underscore in it, and is idempotent: a
    display name is its own display name. *)
Theorem snake_case_to_title_idempotent s :
  Str.is_ascii s = true →
  Str.is_ascii (snake_case_to_title s) = true
  ∧ String.length (snake_case_to_title s) = String.length s
  ∧ Str.replace "_" " " (snake_case_to_title s) = snake_case_to_title s
  ∧ snake_case_to_title (snake_case_to_title s) = snake_case_to_title s.
Proof.
  intros Hs. unfold snake_case_to_title, Str.title. split; [|split; [|split]].
  - by apply is_ascii_title_from, is_ascii_replace.
  - by rewrite title_from_length, replace_length.
  - apply replace_title_replace.
  - by rewrite replace_title_replace, title_from_idempotent.
Qed.


(** ** Concrete runs of the further properties *)

Lemma round_date_down_returns_monday_of_week_witness :
  dt_valid wednesday_noon
  ∧ ∃ r, round_date_down wednesday_noon = inr r
      ∧ dt_valid r
      ∧ is_monday r
      ∧ 0 ≤ wednesday_noon - r ≤ timedelta_days 6
      ∧ r mod US_PER_DAY = wednesday_noon mod US_PER_DAY.
Proof.
  assert (dt_valid wednesday_noon) as H by dt_compute.
  split; [exact H|]. exact (round_date_down_returns_monday_of_week wednesday_noon H).
Defined.

Lemma round_date_down_idempotent_witness :
  round_date_down wednesday_noon = inr monday_noon
  ∧ round_date_down monday_noon = inr monday_noon.
Proof.
  assert (round_date_down wednesday_noon = inr monday_noon) as H
    by (vm_compute; reflexivity).
  split; [exact H|]. exact (round_date_down_idempotent wednesday_noon monday_noon H).
Defined.

Lemma round_date_up_returns_earlier_date_witness :
  dt_valid wednesday_noon
  ∧ 8 ≤ toordinal wednesday_noon
  ∧ ∃ r, round_date_up wednesday_noon = inr r
      ∧ timedelta_days 1 ≤ wednesday_noon - r ≤ timedelta_days 7
      ∧ r mod US_PER_DAY = wednesday_noon mod US_PER_DAY
      ∧ (is_monday r ↔ is_monday wednesday_noon)
      ∧ (is_monday wednesday_noon → r = wednesday_noon - timedelta_weeks 1).
Proof.
  assert (dt_valid wednesday_noon) as H1 by dt_compute.
  assert (8 ≤ toordinal wednesday_noon) as H2 by dt_compute.
  split; [exact H1|]. split; [exact H2|].
  exact (round_date_up_returns_earlier_date wednesday_noon H1 H2).
Defined.

Lemma isoweek_of_rounded_down_date_witness :
  dt_valid wednesday_noon
  ∧ round_date_down wednesday_noon = inr monday_noon
  ∧ get_isoweek_from_date monday_noon = get_isoweek_from_date wednesday_noon.
Proof.
  assert (dt_valid wednesday_noon) as H1 by dt_compute.
  assert (round_date_down wednesday_noon = inr monday_noon) as H2
    by (vm_compute; reflexivity).
  split; [exact H1|]. split; [exact H2|].
  exact (isoweek_of_rounded_down_date wednesday_noon monday_noon H1 H2).
Defined.

Lemma isoweek_one_week_later_witness :
  dt_valid (mk_date 2015 12 28)
  ∧ 1 ≤ get_isoweek_from_date (mk_date 2015 12 28) ≤ 53
  ∧ (get_isoweek_from_date (mk_date 2015 12 28 + timedelta_weeks 1)
       = get_isoweek_from_date (mk_date 2015 12 28) + 1
     ∨ get_isoweek_from_date (mk_date 2015 12 28 + timedelta_weeks 1) = 1).
Proof.
  assert (dt_valid (mk_date 2015 12 28)) as H by dt_compute.
  split; [exact H|]. exact (isoweek_one_week_later (mk_date 2015 12 28) H).
Defined.

Lemma get_cohorts_from_model_weekly_windows_witness :
  get_cohorts_from_model signup_model (mk_date 2015 1 5) (mk_date 2015 1 26)
    = inr (weekly_cohorts signups (mk_date 2015 1 5) (mk_date 2015 1 11) 3)
  ∧ ∃ qs, objects_all signup_model = qs
    ∧ (∀ (k : nat) c,
         weekly_cohorts signups (mk_date 2015 1 5) (mk_date 2015 1 11) 3 !! k = Some c →
         start_date c = mk_date 2015 1 5 + timedelta_weeks (Z.of_nat k)
         ∧ end_date c = start_date c + timedelta_days 6
         ∧ end_date c < mk_date 2015 1 26
         ∧ queryset c = filter_date_created_range qs (start_date c) (end_date c))
    ∧ mk_date 2015 1 26 ≤ mk_date 2015 1 5 + timedelta_days 6
        + timedelta_weeks
            (Z.of_nat (length (weekly_cohorts signups (mk_date 2015 1 5)
                                 (mk_date 2015 1 11) 3))).
Proof.
  assert (get_cohorts_from_model signup_model (mk_date 2015 1 5) (mk_date 2015 1 26)
    = inr (weekly_cohorts signups (mk_date 2015 1 5) (mk_date 2015 1 11) 3)) as H
    by (vm_compute; reflexivity).
  split; [exact H|].
  exact (get_cohorts_from_model_weekly_windows signup_model _ _ _ H).
Defined.

Lemma get_cohorts_from_model_count_witness :
  get_cohorts_from_model signup_model (mk_date 2015 1 5)
      (mk_datetime 2015 1 20 9 30 0 0)
    = inr (weekly_cohorts signups (mk_date 2015 1 5) (mk_date 2015 1 11) 2)
  ∧ Z.of_nat (length (weekly_cohorts signups (mk_date 2015 1 5) (mk_date 2015 1 11) 2))
    = Z.max 0 ((mk_datetime 2015 1 20 9 30 0 0 - (mk_date 2015 1 5 + timedelta_days 6)
                + timedelta_weeks 1 - 1) / timedelta_weeks 1).
Proof.
  assert (get_cohorts_from_model signup_model (mk_date 2015 1 5)
            (mk_datetime 2015 1 20 9 30 0 0)
    = inr (weekly_cohorts signups (mk_date 2015 1 5) (mk_date 2015 1 11) 2)) as H
    by (vm_compute; reflexivity).
  split; [exact H|].
  exact (get_cohorts_from_model_count signup_model _ _ _ H).
Defined.


Lemma cohorts_do_not_share_records_witness :
  get_cohorts_from_model signup_model (mk_date 2015 1 5) (mk_date 2015 1 26)
    = inr (weekly_cohorts signups (mk_date 2015 1 5) (mk_date 2015 1 11) 3)
  ∧ weekly_cohorts signups (mk_date 2015 1 5) (mk_date 2015 1 11) 3 !! 0%nat
      = Some first_week
  ∧ {| pk := 2; date_created := mk_datetime 2015 1 7 12 0 0 0 |} ∈ queryset first_week
  ∧ 0%nat = 0%nat.
Proof.
  assert (get_cohorts_from_model signup_model (mk_date 2015 1 5) (mk_date 2015 1 26)
    = inr (weekly_cohorts signups (mk_date 2015 1 5) (mk_date 2015 1 11) 3)) as H1
    by (vm_compute; reflexivity).
  assert (weekly_cohorts signups (mk_date 2015 1 5) (mk_date 2015 1 11) 3 !! 0%nat
      = Some first_week) as H2 by (vm_compute; reflexivity).
  assert ({| pk := 2; date_created := mk_datetime 2015 1 7 12 0 0 0 |}
            ∈ queryset first_week) as H3.
  { simpl. apply list_elem_of_further, list_elem_of_here. }
  split; [exact H1|]. split; [exact H2|]. split; [exact H3|].
  exact (cohorts_do_not_share_records signup_model _ _ _ 0 0 _ _ _ H1 H2 H2 H3 H3).
Defined.

Lemma day_granular_records_are_covered_witness :
  get_cohorts_from_model signup_model (mk_date 2015 1 5) (mk_date 2015 1 26)
    = inr (weekly_cohorts signups (mk_date 2015 1 5) (mk_date 2015 1 11) 3)
  ∧ {| pk := 3; date_created := mk_date 2015 1 11 |} ∈ signups
  ∧ date_created {| pk := 3; date_created := mk_date 2015 1 11 |}
      = mk_date 2015 1 5 + timedelta_days 6
  ∧ ∃ c, weekly_cohorts signups (mk_date 2015 1 5) (mk_date 2015 1 11) 3
           !! Z.to_nat (6 / 7) = Some c
         ∧ {| pk := 3; date_created := mk_date 2015 1 11 |} ∈ queryset c.
Proof.
  assert (get_cohorts_from_model signup_model (mk_date 2015 1 5) (mk_date 2015 1 26)
    = inr (weekly_cohorts signups (mk_date 2015 1 5) (mk_date 2015 1 11) 3)) as H1
    by (vm_compute; reflexivity).
  assert ({| pk := 3; date_created := mk_date 2015 1 11 |} ∈ signups) as H2.
  { do 2 apply list_elem_of_further. apply list_elem_of_here. }
  assert (date_created {| pk := 3; date_created := mk_date 2015 1 11 |}
            = mk_date 2015 1 5 + timedelta_days 6) as H3 by (vm_compute; reflexivity).
  split; [exact H1|]. split; [exact H2|]. split; [exact H3|].
  apply (day_granular_records_are_covered signup_model signups _ _ _ _ 6 H1);
    [reflexivity|exact H2| |exact H3].
  rewrite length_weekly_cohorts. lia.
Defined.

Lemma seventh_day_records_are_in_no_cohort_witness :
  get_cohorts_from_model signup_model (mk_date 2015 1 5) (mk_date 2015 1 26)
    = inr (weekly_cohorts signups (mk_date 2015 1 5) (mk_date 2015 1 11) 3)
  ∧ mk_date 2015 1 5 + timedelta_weeks (Z.of_nat 0) + timedelta_days 6
      < date_created sunday_noon_signup
  ∧ date_created sunday_noon_signup
      < mk_date 2015 1 5 + timedelta_weeks (Z.of_nat 0) + timedelta_weeks 1
  ∧ first_week ∈ weekly_cohorts signups (mk_date 2015 1 5) (mk_date 2015 1 11) 3
  ∧ sunday_noon_signup ∉ queryset first_week.
Proof.
  assert (get_cohorts_from_model signup_model (mk_date 2015 1 5) (mk_date 2015 1 26)
    = inr (weekly_cohorts signups (mk_date 2015 1 5) (mk_date 2015 1 11) 3)) as H1
    by (vm_compute; reflexivity).
  assert (mk_date 2015 1 5 + timedelta_weeks (Z.of_nat 0) + timedelta_days 6
            < date_created sunday_noon_signup) as H2 by (vm_compute; reflexivity).
  assert (date_created sunday_noon_signup
            < mk_date 2015 1 5 + timedelta_weeks (Z.of_nat 0) + timedelta_weeks 1)
    as H3 by (vm_compute; reflexivity).
  assert (first_week ∈ weekly_cohorts signups (mk_date 2015 1 5) (mk_date 2015 1 11) 3)
    as H4.
  { apply list_elem_of_lookup. exists 0%nat. vm_compute. reflexivity. }
  split; [exact H1|]. split; [exact H2|]. split; [exact H3|]. split; [exact H4|].
  exact (seventh_day_records_are_in_no_cohort signup_model _ _ _ 0 _ _ H1 H2 H3 H4).
Defined.

Lemma analyze_cohorts_raises_first_failure_witness :
  get_metrics_from_file "django_cohort_analysis.metrics" installed_package
    = (inr [("example_metric", MFunction example_metric)], metrics_imported)
  ∧ call (MFunction example_metric) first_week (start_date first_week)
      (mk_date 2015 1 26) = inl TypeError
  ∧ analyze_cohorts [first_week] "django_cohort_analysis.metrics"
      (mk_date 2015 1 5) (mk_date 2015 1 26) installed_package
    = (inl TypeError, metrics_imported).
Proof.
  assert (get_metrics_from_file "django_cohort_analysis.metrics" installed_package
    = (inr [("example_metric", MFunction example_metric)], metrics_imported)) as H1
    by reflexivity.
  assert (call (MFunction example_metric) first_week (start_date first_week)
            (mk_date 2015 1 26) = inl TypeError) as H2 by (vm_compute; reflexivity).
  split; [exact H1|]. split; [exact H2|].
  apply (analyze_cohorts_raises_first_failure [] first_week [] []
           ("example_metric", MFunction example_metric) []
           _ (mk_date 2015 1 5) (mk_date 2015 1 26) _ _ TypeError H1); [| |exact H2].
  - intros c' metric' Hc. exfalso. exact (not_elem_of_nil _ Hc).
  - intros metric' Hm. exfalso. exact (not_elem_of_nil _ Hm).
Defined.

Lemma get_cohorts_from_model_returns_witness :
  objects_all signup_model = signups
  ∧ dt_valid (mk_date 2015 1 5)
  ∧ dt_valid (mk_date 2015 1 5 + timedelta_days 6)
  ∧ dt_valid (mk_date 2015 1 26 + timedelta_weeks 1)
  ∧ ∃ cs, get_cohorts_from_model signup_model (mk_date 2015 1 5) (mk_date 2015 1 26)
            = inr cs.
Proof.
  assert (dt_valid (mk_date 2015 1 5)) as H1 by dt_compute.
  assert (dt_valid (mk_date 2015 1 5 + timedelta_days 6)) as H2 by dt_compute.
  assert (dt_valid (mk_date 2015 1 26 + timedelta_weeks 1)) as H3 by dt_compute.
  split; [reflexivity|]. split; [exact H1|]. split; [exact H2|]. split; [exact H3|].
  exact (get_cohorts_from_model_returns signup_model signups _ _ eq_refl H1 H2 H3).
Defined.

Lemma example_metric_returns_nothing_or_raises_witness :
  dt_valid (mk_date 2015 1 5)
  ∧ dt_valid (mk_date 2015 1 5 + timedelta_days 8)
  ∧ (mk_date 2015 1 26 ≤ mk_date 2015 1 5 + timedelta_weeks 1 →
       example_metric first_week (mk_date 2015 1 5) (mk_date 2015 1 26)
         = inr (PyList []))
  ∧ (mk_date 2015 1 5 + timedelta_weeks 1 < mk_date 2015 1 26 →
       example_metric first_week (mk_date 2015 1 5) (mk_date 2015 1 26)
         = inl TypeError)
  ∧ ∀ v, example_metric first_week (mk_date 2015 1 5) (mk_date 2015 1 26) = inr v →
         v = PyList [].
Proof.
  assert (dt_valid (mk_date 2015 1 5)) as H1 by dt_compute.
  assert (dt_valid (mk_date 2015 1 5 + timedelta_days 8)) as H2 by dt_compute.
  split; [exact H1|]. split; [exact H2|].
  exact (example_metric_returns_nothing_or_raises first_week _ (mk_date 2015 1 26) H1 H2).
Defined.


Lemma analyze_cohorts_for_model_between_mondays_witness :
  objects_all signup_model = signups
  ∧ is_monday (mk_date 2015 1 5)
  ∧ dt_valid (mk_date 2015 1 5)
  ∧ 1 ≤ 2
  ∧ dt_valid (mk_date 2015 1 5 + timedelta_days (7 * 2))
  ∧ get_metrics_from_file "django_cohort_analysis.metrics" installed_package
      = (inr [("example_metric", MFunction example_metric)], metrics_imported)
  ∧ ∃ reports,
      analyze_cohorts_for_model signup_model (mk_date 2015 1 5)
        (mk_date 2015 1 5 + timedelta_days (7 * 2))
        (Some "django_cohort_analysis.metrics") installed_package
        = (inr reports, metrics_imported)
      ∧ Z.of_nat (length reports) = 2 - 1.
Proof.
  assert (is_monday (mk_date 2015 1 5)) as H1 by (vm_compute; reflexivity).
  assert (dt_valid (mk_date 2015 1 5)) as H2 by dt_compute.
  assert (dt_valid (mk_date 2015 1 5 + timedelta_days (7 * 2))) as H3 by dt_compute.
  assert (get_metrics_from_file "django_cohort_analysis.metrics" installed_package
    = (inr [("example_metric", MFunction example_metric)], metrics_imported)) as H4
    by reflexivity.
  split; [reflexivity|]. split; [exact H1|]. split; [exact H2|]. split; [lia|].
  split; [exact H3|]. split; [exact H4|].
  apply (analyze_cohorts_for_model_between_mondays signup_model signups
           (mk_date 2015 1 5) 2 "django_cohort_analysis.metrics" installed_package
           [("example_metric", MFunction example_metric)] metrics_imported
           eq_refl H1 H2 ltac:(lia) H3 H4).
  clear H1 H2 H3 H4.
  assert (weekly_cohorts signups (mk_date 2015 1 5)
            (mk_date 2015 1 5 + timedelta_days 6) (Z.to_nat (2 - 1)) = [first_week])
    as Hw by (vm_compute; reflexivity).
  intros c metric Hc Hm. rewrite Hw in Hc.
  apply list_elem_of_singleton in Hc. apply list_elem_of_singleton in Hm.
  rewrite Hc, Hm. exists (PyList []). vm_compute. reflexivity.
Defined.

Lemma builtin_metrics_between_mondays_witness :
  objects_all signup_model = signups
  ∧ is_monday (mk_date 2015 1 5)
  ∧ dt_valid (mk_date 2015 1 5)
  ∧ 2 ≤ 3
  ∧ dt_valid (mk_date 2015 1 5 + timedelta_days (7 * 3))
  ∧ resolve "django_cohort_analysis.metrics" installed_package = Some metrics_module
  ∧ 3 ≤ 3
  ∧ (analyze_cohorts_for_model signup_model (mk_date 2015 1 5)
       (mk_date 2015 1 5 + timedelta_days (7 * 3))
       (Some "django_cohort_analysis.metrics") installed_package).1
    = inl TypeError.
Proof.
  assert (is_monday (mk_date 2015 1 5)) as H1 by (vm_compute; reflexivity).
  assert (dt_valid (mk_date 2015 1 5)) as H2 by dt_compute.
  assert (dt_valid (mk_date 2015 1 5 + timedelta_days (7 * 3))) as H3 by dt_compute.
  assert (resolve "django_cohort_analysis.metrics" installed_package
            = Some metrics_module) as H4 by reflexivity.
  split; [reflexivity|]. split; [exact H1|]. split; [exact H2|]. split; [lia|].
  split; [exact H3|]. split; [exact H4|]. split; [lia|].
  exact (proj2 (builtin_metrics_between_mondays signup_model signups
                  (mk_date 2015 1 5) 3 "django_cohort_analysis.metrics"
                  installed_package eq_refl H1 H2 ltac:(lia) H3 H4) ltac:(lia)).
Defined.

Lemma snake_case_to_title_words_witness :
  snake_lower "example_metric" = true
  ∧ snake_case_to_title "example_metric" = words_capitalized "example_metric".
Proof.
  split; [reflexivity|].
  exact (snake_case_to_title_words "example_metric" eq_refl).
Defined.

Lemma snake_case_to_title_idempotent_witness :
  Str.is_ascii "example_metric" = true
  ∧ Str.is_ascii (snake_case_to_title "example_metric") = true
  ∧ String.length (snake_case_to_title "example_metric") = String.length "example_metric"
  ∧ Str.replace "_" " " (snake_case_to_title "example_metric")
      = snake_case_to_title "example_metric"
  ∧ snake_case_to_title (snake_case_to_title "example_metric")
      = snake_case_to_title "example_metric".
Proof.
  split; [reflexivity|].
  exact (snake_case_to_title_idempotent "example_metric" eq_refl).
Defined.
